(** * Color-Prediction bot: a shallow embedding of [prediction.py]

    The bot is a set of asynchronous handlers over three MongoDB
    collections and the Telegram Bot API.  Each handler is embedded as a
    computation in a small monad: it reads the store, may raise a Python
    exception, and emits the ordered list of external calls it made. *)

From Stdlib Require Import ZArith List String Ascii Bool Lia.
From Stdlib Require Import Sorted Permutation DecimalString.
Import ListNotations.

Open Scope string_scope.
Open Scope list_scope.
Open Scope Z_scope.

(** ** Python values *)

Definition nl : string := String (ascii_of_nat 10) EmptyString.
Definition dq : string := String (ascii_of_nat 34) EmptyString.

(** [str(n)] for a Python [int]. *)
Definition str (n : Z) : string := NilZero.string_of_int (Z.to_int n).

(** [str(x)] for a value that may be [None]. *)
Definition str_opt (x : option string) : string :=
  match x with Some s => s | None => "None" end.

(** [x or d] on an optional string: [None] and the empty string are falsy. *)
Definition or_else (x : option string) (d : string) : string :=
  match x with
  | Some EmptyString | None => d
  | Some s => s
  end.

Inductive exn : Type :=
| TelegramError (msg : string)
| PyMongoError (msg : string)
| AttributeError (msg : string)
| IndexError (msg : string)
| JSONDecodeError (msg : string)
| TypeError (msg : string).

Definition str_exn (e : exn) : string :=
  match e with
  | TelegramError m | PyMongoError m | AttributeError m
  | IndexError m | JSONDecodeError m | TypeError m => m
  end.

Inductive Res (A : Type) : Type :=
| Ok (a : A)
| Raise (e : exn).
Arguments Ok {A} a.
Arguments Raise {A} e.

(** ** Telegram objects *)

Record User : Type := mkUser {
  id : Z;
  username : option string;
  first_name : string;
  last_name : option string
}.

Record Message : Type := mkMessage {
  msg_from_user : option User;
  msg_text : string
}.

(** [query.message] is the message the pressed button sits on; it is
    [None] when Telegram sends none (or one whose content is no longer
    accessible, which has no [reply_text], [edit_text] or [reply_photo]). *)
Record CallbackQuery : Type := mkCallbackQuery {
  from_user : User;
  data : string;
  query_message : option Message
}.

(** An [Update] carries a [message] (commands) or a [callback_query]
    (button presses); the other attribute is [None]. *)
Record Update : Type := mkUpdate {
  message : option Message;
  callback_query : option CallbackQuery
}.

(** [update.effective_user]: the sender of whichever part is present. *)
Definition effective_user (update : Update) : option User :=
  match message update with
  | Some m => msg_from_user m
  | None =>
      match callback_query update with
      | Some q => Some (from_user q)
      | None => None
      end
  end.

Inductive Button : Type :=
| UrlButton (text url : string)
| CallbackButton (text callback_data : string).

Definition Markup : Type := list (list Button).

(** Which message object a method is called on. *)
Inductive Target : Type :=
| UpdateMessage   (* update.message *)
| QueryMessage    (* query.message *)
| SyncMessage.    (* the message returned by the first animation frame *)

(** Calls on the Bot API made by the handlers. *)
Inductive Call : Type :=
| get_chat_member (chat_id : string) (user_id : Z)
| answer (text : option string) (show_alert : bool)
| reply_text (on : Target) (text : string) (reply_markup : option Markup)
    (parse_mode : option string)
| edit_text (on : Target) (text : string)
| delete (on : Target)
| reply_photo (on : Target) (photo caption : string) (parse_mode : string)
    (reply_markup : Markup)
| send_message (chat_id : Z) (text : string).

(** ** The store *)

Record UserDoc : Type := mkUserDoc {
  u_user_id : Z;
  u_username : option string;
  u_first_name : string;
  u_last_name : option string;
  u_balance : Z;
  u_predictions : Z;
  u_join_date : string
}.

Record PredictionDoc : Type := mkPredictionDoc {
  p_user_id : Z;
  p_type : string;
  p_result : string;
  p_timestamp : string
}.

Record LeaderDoc : Type := mkLeaderDoc {
  l_user_id : Z;
  l_username : option string;
  l_score : Z
}.

(** The three collections, in insertion order, and the application's
    inbound update queue. *)
Record Store : Type := mkStore {
  users_collection : list UserDoc;
  predictions_collection : list PredictionDoc;
  leaderboard_collection : list LeaderDoc;
  update_queue : list (option Update)
}.

Definition empty_store : Store := mkStore [] [] [] [].

Definition set_users (us : list UserDoc) (s : Store) : Store :=
  mkStore us (predictions_collection s) (leaderboard_collection s) (update_queue s).
Definition set_predictions (ps : list PredictionDoc) (s : Store) : Store :=
  mkStore (users_collection s) ps (leaderboard_collection s) (update_queue s).
Definition set_leaderboard (ls : list LeaderDoc) (s : Store) : Store :=
  mkStore (users_collection s) (predictions_collection s) ls (update_queue s).
Definition set_queue (q : list (option Update)) (s : Store) : Store :=
  mkStore (users_collection s) (predictions_collection s) (leaderboard_collection s) q.

(** Operations on the collections. *)
Inductive DbOp : Type :=
| users_update_one
| users_find_one
| users_find
| users_count_documents
| predictions_insert_one
| predictions_count_documents
| leaderboard_update_one
| leaderboard_find.

(** ** Effects *)

Inductive Effect : Type :=
| Called (c : Call)                 (* a Bot API call that returned *)
| CallFailed (c : Call) (e : exn)   (* a Bot API call that raised *)
| Db (op : DbOp) (ok : bool)        (* a store operation and whether it returned *)
| Logged (msg : string)             (* logger.error *)
| Slept (seconds : Z).              (* asyncio.sleep *)

(** What the outside world answers during one handler run: the clock, the
    random source, the membership queries, and which Bot API calls and
    store operations raise.  Within one run the same call gets the same
    answer. *)
Record Env : Type := mkEnv {
  now : string;                              (* datetime.now().strftime(...) *)
  entropy : Z;                               (* the state of [random] *)
  chat_member_status : string -> Z -> Res string;
  telegram : Call -> option exn;             (* [Some e]: the call raises [e] *)
  mongo : DbOp -> option exn                 (* [Some e]: the operation raises [e] *)
}.

Record Config : Type := mkConfig {
  token : string;
  admin_id : Z;
  required_channels : list string;
  channel_links : list string
}.

(** ** The handler monad: store passing, exceptions, emitted effects *)

Definition M (A : Type) : Type := Store -> Res A * Store * list Effect.

Definition ret {A} (a : A) : M A := fun s => (Ok a, s, []).

Definition raise {A} (e : exn) : M A := fun s => (Raise e, s, []).

Definition bind {A B} (m : M A) (k : A -> M B) : M B :=
  fun s =>
    match m s with
    | (Ok a, s1, t1) =>
        match k a s1 with
        | (r, s2, t2) => (r, s2, t1 ++ t2)
        end
    | (Raise e, s1, t1) => (Raise e, s1, t1)
    end.

(** [try: m except Exception as e: h e] *)
Definition try_except {A} (m : M A) (h : exn -> M A) : M A :=
  fun s =>
    match m s with
    | (Ok a, s1, t1) => (Ok a, s1, t1)
    | (Raise e, s1, t1) =>
        match h e s1 with
        | (r, s2, t2) => (r, s2, t1 ++ t2)
        end
    end.

Definition emit (e : Effect) : M unit := fun s => (Ok tt, s, [e]).

Declare Scope py_scope.
Delimit Scope py_scope with py.
Notation "x <- m ;; k" := (bind m (fun x => k))
  (at level 100, m at next level, right associativity) : py_scope.
Notation "m ;; k" := (bind m (fun _ => k))
  (at level 100, right associativity) : py_scope.
Open Scope py_scope.

(** [opt.attr] where [opt] may be [None]. *)
Definition attr {A} (opt : option A) (name : string) : M A :=
  match opt with
  | Some a => ret a
  | None =>
      raise (AttributeError ("'NoneType' object has no attribute '" ++ name ++ "'"))
  end.

Definition result_of {A} (x : Res A * Store * list Effect) : Res A := fst (fst x).
Definition store_of {A} (x : Res A * Store * list Effect) : Store := snd (fst x).
Definition effects_of {A} (x : Res A * Store * list Effect) : list Effect := snd x.

(** ** Message texts *)

Definition SYNC_FRAMES : list string :=
  [ "ğŸ“Š ğ‘ªğ’‰ğ’†ğ’„ğ’Œğ’Šğ’ğ’ˆ ğ‘·ğ’“ğ’†ğ’…ğ’Šğ’„ğ’•ğ’Šğ’ğ’ğ’” [â–“â–“â–‘â–‘â–‘â–‘â–‘â–‘â–‘â–‘â–‘â–‘â–‘] 15%";
    "ğŸ“Š ğ‘ªğ’‰ğ’†ğ’„ğ’Œğ’Šğ’ğ’ˆ ğ‘·ğ’“ğ’†ğ’…ğ’Šğ’„ğ’•ğ’Šğ’ğ’ğ’” [â–“â–“â–“â–‘â–‘â–‘â–‘â–‘â–‘â–‘â–‘â–‘] 30%";
    "ğŸ“Š ğ‘ªğ’‰ğ’†ğ’„ğ’Œğ’Šğ’ğ’ˆ ğ‘·ğ’“ğ’†ğ’…ğ’Šğ’„ğ’•ğ’Šğ’ğ’ğ’” [â–“â–“â–“â–“â–“â–‘â–‘â–‘â–‘â–‘â–‘â–‘] 45%";
    "ğŸ“Š ğ‘ªğ’‰ğ’†ğ’„ğ’Œğ’Šğ’ğ’ˆ ğ‘·ğ’“ğ’†ğ’…ğ’Šğ’„ğ’•ğ’Šğ’ğ’ğ’” [â–“â–“â–“â–“â–“â–“â–“â–‘â–‘â–‘â–‘â–‘] 60%";
    "ğŸ“Š ğ‘ªğ’‰ğ’†ğ’„ğ’Œğ’Šğ’ğ’ˆ ğ‘·ğ’“ğ’†ğ’…ğ’Šğ’„ğ’•ğ’Šğ’ğ’ğ’” [â–“â–“â–“â–“â–“â–“â–“â–“â–“â–‘â–‘â–‘] 80%";
    "ğŸ“Š ğ‘ªğ’‰ğ’†ğ’„ğ’Œğ’Šğ’ğ’ˆ ğ‘·ğ’“ğ’†ğ’…ğ’Šğ’„ğ’•ğ’Šğ’ğ’ğ’” [â–“â–“â–“â–“â–“â–“â–“â–“â–“â–“â–“] 100%" ].
Definition JOIN_PROMPT : string :=
  "ğŸª¬ Verification Status: âš ï¸ You must join the following channels to use this bot and verify you're not a robot ğŸš¨" ++ nl ++ nl ++ "Click the buttons below to join, then press *'âœ… Verify'*.".
Definition VERIFY_BUTTON : string :=
  "âœ… Verify".
Definition VERIFIED_TEXT : string :=
  "âœ… You are verified! You can now use the bot.".
Definition NOT_JOINED_ALERT : string :=
  "âš ï¸ You haven't joined all the required channels yet!".
Definition RED : string :=
  "ğŸ”´ RED".
Definition GREEN : string :=
  "ğŸŸ¢ GREEN".
Definition AGAIN_BUTTON : string :=
  "ğŸ”„ Get Prediction Again".
Definition COLOR_CAPTION_HEAD : string :=
  "ğŸ¨ Color Prediction:" ++ nl ++ nl.
Definition CAPTION_FOOT : string :=
  nl ++ nl ++ "ğŸ“‘ Remember: Read how to bet from the /howtobet command before you proceed!" ++ nl ++ nl ++ "ğŸ”— <a href=" ++ dq ++ "https://matatulord.com?referral_code=W7GNJF" ++ dq ++ ">Make Money with Matatu Game</a>".
Definition NUMBER_CAPTION_HEAD : string :=
  "ğŸ”¢ Number Prediction:" ++ nl ++ nl ++ "ğŸ° Number: ".
Definition COLOR_BUTTON : string :=
  "ğŸ¨ Color Prediction".
Definition NUMBER_BUTTON : string :=
  "ğŸ”¢ Number Prediction".
Definition WELCOME_TEXT : string :=
  "ğŸ‰ Welcome to the Color and Number Prediction Bot!" ++ nl ++ nl ++ "ğŸ“¢ Disclaimer: This bot provides randomized predictions for entertainment only." ++ nl ++ nl ++ "Use the buttons below to get started:".
Definition HOW_TO_BET_TEXT : string :=
  "ğŸ² *How to Bet on Color & Number Prediction Games* ğŸ²" ++ nl ++ nl ++ "1ï¸âƒ£ Choose a trusted betting platform" ++ nl ++ "2ï¸âƒ£ Deposit funds into your account" ++ nl ++ "3ï¸âƒ£ Select the game type" ++ nl ++ "4ï¸âƒ£ Place your bet" ++ nl ++ "5ï¸âƒ£ Wait for results" ++ nl ++ nl ++ "âš ï¸ *Bet Responsibly!*".
Definition PROFILE_ID : string :=
  "ğŸ‘¤ User Info:" ++ nl ++ nl ++ "ğŸ†” User ID: ".
Definition PROFILE_NAME : string :=
  nl ++ "ğŸ¤µ Name: ".
Definition PROFILE_USERNAME : string :=
  nl ++ "ğŸ‘¤ Username: ".
Definition PROFILE_PREDICTIONS : string :=
  nl ++ "ğŸ“Š Predictions: ".
Definition PROFILE_JOINED : string :=
  nl ++ "â³ Joined: ".
Definition PROFILE_RULE : string :=
  nl ++ "â”â”â”â”â”â”â”â”â”â”â”â”â”â”â”â”â”â”â”â”â”â”â”â”" ++ nl.
Definition NO_LEADERBOARD : string :=
  "No users on the leaderboard yet.".
Definition LEADERBOARD_HEAD : string :=
  "ğŸ† Top 10 Users:" ++ nl ++ nl.
Definition BROADCAST_DENIED : string :=
  "âŒ You don't have permission to use this command.".
Definition BROADCAST_USAGE : string :=
  "âŒ Please provide a message to broadcast.".
Definition BROADCAST_DONE : string :=
  "âœ… Broadcast sent to ".
Definition STATS_DENIED : string :=
  "âš ï¸ You are not authorized to use this command.".
Definition STATS_HEAD : string :=
  "ğŸ“Š *Bá´á´› Sá´›á´€á´›Éªêœ±á´›Éªá´„êœ±*" ++ nl ++ nl.
Definition STATS_USERS : string :=
  "ğŸ‘¥ Tá´á´›á´€ÊŸ Uêœ±á´‡Ê€êœ±: ".
Definition STATS_PREDICTIONS : string :=
  "ğŸ” Tá´á´›á´€ÊŸ Predictions: ".
Definition CONTACT_TEXT : string :=
  "ğŸ“ â˜…å½¡( ğ•®ğ–”ğ–“ğ–™ğ–†ğ–ˆğ–™ ğ–€ğ–˜ )å½¡â˜… ğŸ“" ++ nl ++ nl ++ "ğŸ“§ Eá´á´€ÉªÊŸ: `freenethubbusiness@gmail.com`" ++ nl ++ nl ++ "Fá´Ê€ AÉ´Ê Iêœ±êœ±á´œá´‡êœ±, Bá´œêœ±ÉªÉ´á´‡êœ±êœ± Dá´‡á´€ÊŸêœ± OÊ€ IÉ´Qá´œÉªÊ€Éªá´‡êœ±, PÊŸá´‡á´€êœ±á´‡ Rá´‡á´€á´„Êœ Oá´œá´› Tá´ Uêœ± " ++ nl ++ nl ++ "â— *ONLY FOR BUSINESS AND HELP, DON'T SPAM!*".
Definition CONTACT_BUTTON : string :=
  "ğŸ“© Má´‡êœ±êœ±á´€É¢á´‡ Aá´…á´ÉªÉ´".

(** ** Store primitives *)

(** [update_one(filter, update, upsert=True)]: the first document matching
    the filter is updated; when none matches, a fresh one is inserted. *)
Fixpoint update_one {D} (matches : D -> bool) (upd : D -> D) (fresh : D)
    (coll : list D) : list D :=
  match coll with
  | [] => [fresh]
  | d :: rest =>
      if matches d then upd d :: rest
      else d :: update_one matches upd fresh rest
  end.

(** [find_one(filter)] *)
Definition find_one {D} (matches : D -> bool) (coll : list D) : option D :=
  find matches coll.

(** [count_documents(filter)] *)
Definition count_documents {D} (matches : D -> bool) (coll : list D) : Z :=
  Z.of_nat (List.length (filter matches coll)).

(** [sort('score', -1)]: descending by score, ties in collection order. *)
Fixpoint insert_desc (d : LeaderDoc) (l : list LeaderDoc) : list LeaderDoc :=
  match l with
  | [] => [d]
  | x :: rest =>
      if l_score x <=? l_score d then d :: x :: rest
      else x :: insert_desc d rest
  end.

Definition sort_desc (l : list LeaderDoc) : list LeaderDoc :=
  fold_right insert_desc [] l.

(** [enumerate(l, start)] *)
Fixpoint enumerate {A} (l : list A) (start : Z) : list (Z * A) :=
  match l with
  | [] => []
  | a :: rest => (start, a) :: enumerate rest (start + 1)
  end.

(** A [for] loop whose body may raise. *)
Fixpoint for_each {A} (l : list A) (body : A -> M unit) : M unit :=
  match l with
  | [] => ret tt
  | a :: rest => body a ;; for_each rest body
  end.

(** A list comprehension whose element expression may raise. *)
Fixpoint comprehension {A B} (l : list A) (f : A -> M B) : M (list B) :=
  match l with
  | [] => ret []
  | a :: rest => b <- f a ;; bs <- comprehension rest f ;; ret (b :: bs)
  end.

Definition MEMBER_STATUSES : list string := ["member"; "administrator"; "creator"].

Definition is_in (s : string) (l : list string) : bool := existsb (String.eqb s) l.

Section Bot.

Variable CONFIG : Config.
Variable env : Env.

(** One operation on a collection: it raises when the driver does. *)
Definition db {A} (op : DbOp) (f : Store -> A * Store) : M A :=
  fun s =>
    match mongo env op with
    | Some e => (Raise e, s, [Db op false])
    | None => (Ok (fst (f s)), snd (f s), [Db op true])
    end.

(** One Bot API call without a result. *)
Definition call (c : Call) : M unit :=
  fun s =>
    match telegram env c with
    | Some e => (Raise e, s, [CallFailed c e])
    | None => (Ok tt, s, [Called c])
    end.

(** [bot.get_chat_member(chat_id, user_id).status] *)
Definition bot_get_chat_member (chat_id : string) (user_id : Z) : M string :=
  fun s =>
    match chat_member_status env chat_id user_id with
    | Ok status => (Ok status, s, [Called (get_chat_member chat_id user_id)])
    | Raise e => (Raise e, s, [CallFailed (get_chat_member chat_id user_id) e])
    end.

(** [random.randint(a, b)] and [random.choice(seq)] *)
Definition randint (a b : Z) : Z := a + entropy env mod (b - a + 1).

Definition choice (seq : list string) : string :=
  nth (Z.to_nat (entropy env mod Z.of_nat (List.length seq))) seq "".

(** *** Database functions *)

Definition add_user (user : User) : M unit :=
  db users_update_one (fun s =>
    (tt, set_users
           (update_one (fun d => u_user_id d =? id user)
              (fun d => mkUserDoc (u_user_id d) (username user) (first_name user)
                          (last_name user) 0 0 (now env))
              (mkUserDoc (id user) (username user) (first_name user)
                 (last_name user) 0 0 (now env))
              (users_collection s)) s)).

Definition add_prediction (user_id : Z) (prediction_type result : string) : M unit :=
  db predictions_insert_one (fun s =>
    (tt, set_predictions
           (predictions_collection s
              ++ [mkPredictionDoc user_id prediction_type result (now env)]) s)).

Definition update_leaderboard (user_id : Z) (uname : option string) (points : Z)
    : M unit :=
  db leaderboard_update_one (fun s =>
    (tt, set_leaderboard
           (update_one (fun d => l_user_id d =? user_id)
              (fun d => mkLeaderDoc (l_user_id d) uname (l_score d + points))
              (mkLeaderDoc user_id uname points)
              (leaderboard_collection s)) s)).

Definition get_leaderboard : M (list LeaderDoc) :=
  db leaderboard_find (fun s =>
    (firstn 10 (sort_desc (leaderboard_collection s)), s)).

Definition get_user_stats (user_id : Z) : M (option UserDoc * Z) :=
  user <- db users_find_one (fun s =>
            (find_one (fun d => u_user_id d =? user_id) (users_collection s), s)) ;;
  prediction_count <- db predictions_count_documents (fun s =>
            (count_documents (fun d => p_user_id d =? user_id)
               (predictions_collection s), s)) ;;
  ret (user, prediction_count).

(** *** Force join *)

(** The loop of [is_user_member]; [Some b] in the body stands for [return b]. *)
Fixpoint is_user_member_loop (channels : list string) (user_id : Z) : M bool :=
  match channels with
  | [] => ret true
  | channel :: rest =>
      returned <-
        try_except
          (status <- bot_get_chat_member ("@" ++ channel) user_id ;;
           if negb (is_in status MEMBER_STATUSES) then ret (Some false)
           else ret None)
          (fun e =>
             emit (Logged ("Error checking membership for " ++ str user_id
                             ++ " in " ++ channel ++ ": " ++ str_exn e)) ;;
             ret (Some false)) ;;
      match returned with
      | Some b => ret b
      | None => is_user_member_loop rest user_id
      end
  end.

Definition is_user_member (user_id : Z) : M bool :=
  is_user_member_loop (required_channels CONFIG) user_id.

Definition join_button (i : nat) : M (list Button) :=
  match nth_error (required_channels CONFIG) i,
        nth_error (channel_links CONFIG) i with
  | Some channel, Some link => ret [UrlButton ("Join " ++ channel) link]
  | _, _ => raise (IndexError "list index out of range")
  end.

Definition ask_user_to_join (update : Update) : M unit :=
  buttons <- comprehension (seq 0 (List.length (required_channels CONFIG))) join_button ;;
  let buttons := (buttons ++ [[CallbackButton VERIFY_BUTTON "verify_membership"]])%list in
  _ <- attr (message update) "reply_text" ;;
  call (reply_text UpdateMessage JOIN_PROMPT (Some buttons) (Some "Markdown")).

(** *** Prediction *)

Definition show_sync_animation (query : CallbackQuery) : M unit :=
  _ <- attr (query_message query) "reply_text" ;;
  match SYNC_FRAMES with
  | [] => raise (IndexError "list index out of range")
  | first :: frames =>
      call (reply_text QueryMessage first None None) ;;
      for_each frames (fun frame =>
        emit (Slept 1) ;;
        call (edit_text SyncMessage frame))
  end.

Definition color_image (color : string) : string :=
  if String.eqb color RED then "https://t.me/megahubbots/16"
  else "https://t.me/megahubbots/15".

Definition handle_color_prediction (update : Update) : M unit :=
  query <- attr (callback_query update) "answer" ;;
  call (answer None false) ;;
  show_sync_animation query ;;
  let color := choice [RED; GREEN] in
  let image_url := color_image color in
  add_prediction (id (from_user query)) "color" color ;;
  update_leaderboard (id (from_user query)) (username (from_user query)) 1 ;;
  let keyboard := [[CallbackButton AGAIN_BUTTON "color_prediction"]] in
  call (delete SyncMessage) ;;
  _ <- attr (query_message query) "reply_photo" ;;
  call (reply_photo QueryMessage image_url
          (COLOR_CAPTION_HEAD ++ color ++ CAPTION_FOOT) "HTML" keyboard).

Definition size_of (number : Z) : string :=
  if number <=? 4 then "SMALL" else "BIG".

Definition size_image (size : string) : string :=
  if String.eqb size "SMALL" then "https://t.me/megahubbots/13"
  else "https://t.me/megahubbots/14".

Definition number_result (number : Z) (size : string) : string :=
  str number ++ " (" ++ size ++ ")".

Definition handle_number_prediction (update : Update) : M unit :=
  query <- attr (callback_query update) "answer" ;;
  call (answer None false) ;;
  show_sync_animation query ;;
  let number := randint 1 10 in
  let size := size_of number in
  let image_url := size_image size in
  add_prediction (id (from_user query)) "number" (number_result number size) ;;
  update_leaderboard (id (from_user query)) (username (from_user query)) 1 ;;
  let keyboard := [[CallbackButton AGAIN_BUTTON "number_prediction"]] in
  call (delete SyncMessage) ;;
  _ <- attr (query_message query) "reply_photo" ;;
  call (reply_photo QueryMessage image_url
          (NUMBER_CAPTION_HEAD ++ number_result number size ++ CAPTION_FOOT)
          "HTML" keyboard).

(** *** Command handlers *)

Definition start (update : Update) : M unit :=
  user <- attr (effective_user update) "id" ;;
  add_user user ;;
  member <- is_user_member (id user) ;;
  if negb member then ask_user_to_join update
  else
    let keyboard :=
      [[CallbackButton COLOR_BUTTON "color_prediction"];
       [CallbackButton NUMBER_BUTTON "number_prediction"]] in
    _ <- attr (message update) "reply_text" ;;
    call (reply_text UpdateMessage WELCOME_TEXT (Some keyboard) None).

Definition verify_membership (update : Update) : M unit :=
  query <- attr (callback_query update) "from_user" ;;
  let user_id := id (from_user query) in
  member <- is_user_member user_id ;;
  if member then
    _ <- attr (query_message query) "edit_text" ;;
    call (edit_text QueryMessage VERIFIED_TEXT) ;;
    start update
  else call (answer (Some NOT_JOINED_ALERT) true).

Definition how_to_bet (update : Update) : M unit :=
  user <- attr (effective_user update) "id" ;;
  member <- is_user_member (id user) ;;
  if negb member then ask_user_to_join update
  else
    _ <- attr (message update) "reply_text" ;;
    call (reply_text UpdateMessage HOW_TO_BET_TEXT None (Some "Markdown")).

Definition profile (update : Update) : M unit :=
  user <- attr (effective_user update) "id" ;;
  member <- is_user_member (id user) ;;
  if negb member then ask_user_to_join update
  else
    stats <- get_user_stats (id user) ;;
    let (user_data, prediction_count) := stats in
    _ <- attr (message update) "reply_text" ;;
    user_data <- attr user_data "get" ;;
    call (reply_text UpdateMessage
            (PROFILE_ID ++ str (id user)
             ++ PROFILE_NAME ++ first_name user
             ++ PROFILE_USERNAME ++ or_else (username user) "N/A"
             ++ PROFILE_PREDICTIONS ++ str prediction_count
             ++ PROFILE_JOINED ++ u_join_date user_data
             ++ PROFILE_RULE) None None).

Definition leaderboard_line (entry : Z * LeaderDoc) : string :=
  str (fst entry) ++ ". " ++ str_opt (l_username (snd entry)) ++ ": "
  ++ str (l_score (snd entry)) ++ " points" ++ nl.

Definition leaderboard_text (leaderboard_data : list LeaderDoc) : string :=
  fold_left (fun text entry => (text ++ leaderboard_line entry)%string)
    (enumerate leaderboard_data 1) LEADERBOARD_HEAD.

Definition leaderboard (update : Update) : M unit :=
  leaderboard_data <- get_leaderboard ;;
  match leaderboard_data with
  | [] =>
      _ <- attr (message update) "reply_text" ;;
      call (reply_text UpdateMessage NO_LEADERBOARD None None)
  | _ =>
      _ <- attr (message update) "reply_text" ;;
      call (reply_text UpdateMessage (leaderboard_text leaderboard_data) None None)
  end.

(** The loop of [broadcast]: one [send_message] per user document, a
    failure is logged and the loop goes on. *)
Fixpoint broadcast_loop (users : list UserDoc) (text : string) (success : Z)
    : M Z :=
  match users with
  | [] => ret success
  | user :: rest =>
      success <-
        try_except
          (call (send_message (u_user_id user) text) ;;
           ret (success + 1))
          (fun e =>
             emit (Logged ("Failed to send to " ++ str (u_user_id user)
                             ++ ": " ++ str_exn e)) ;;
             ret success) ;;
      broadcast_loop rest text success
  end.

Definition broadcast (update : Update) (args : list string) : M unit :=
  user <- attr (effective_user update) "id" ;;
  if negb (id user =? admin_id CONFIG) then
    _ <- attr (message update) "reply_text" ;;
    call (reply_text UpdateMessage BROADCAST_DENIED None None)
  else
    match args with
    | [] =>
        _ <- attr (message update) "reply_text" ;;
        call (reply_text UpdateMessage BROADCAST_USAGE None None)
    | _ =>
        let text := String.concat " " args in
        users <- db users_find (fun s => (users_collection s, s)) ;;
        success <- broadcast_loop users text 0 ;;
        _ <- attr (message update) "reply_text" ;;
        call (reply_text UpdateMessage
                (BROADCAST_DONE ++ str success ++ " users.") None None)
    end.

Definition stats (update : Update) : M unit :=
  user <- attr (effective_user update) "id" ;;
  if negb (id user =? admin_id CONFIG) then
    _ <- attr (message update) "reply_text" ;;
    call (reply_text UpdateMessage STATS_DENIED None None)
  else
    user_count <- db users_count_documents (fun s =>
                    (count_documents (fun _ => true) (users_collection s), s)) ;;
    total_predictions <- db predictions_count_documents (fun s =>
                    (count_documents (fun _ => true) (predictions_collection s), s)) ;;
    let text := STATS_HEAD in
    let text := (text ++ STATS_USERS ++ str user_count ++ nl)%string in
    let text := (text ++ STATS_PREDICTIONS ++ str total_predictions ++ nl ++ nl)%string in
    _ <- attr (message update) "reply_text" ;;
    call (reply_text UpdateMessage text None (Some "Markdown")).

Definition contact_us (update : Update) : M unit :=
  let keyboard := [[UrlButton CONTACT_BUTTON "https://t.me/Silando"]] in
  _ <- attr (message update) "reply_text" ;;
  call (reply_text UpdateMessage CONTACT_TEXT (Some keyboard) (Some "Markdown")).

(** *** The handlers registered by [main] *)

Inductive Handler : Type :=
| h_start | h_howtobet | h_profile | h_leaderboard | h_broadcast
| h_stats | h_contactus
| h_color_prediction | h_number_prediction | h_verify_membership.

Definition run_handler (h : Handler) (update : Update) (args : list string)
    : M unit :=
  match h with
  | h_start => start update
  | h_howtobet => how_to_bet update
  | h_profile => profile update
  | h_leaderboard => leaderboard update
  | h_broadcast => broadcast update args
  | h_stats => stats update
  | h_contactus => contact_us update
  | h_color_prediction => handle_color_prediction update
  | h_number_prediction => handle_number_prediction update
  | h_verify_membership => verify_membership update
  end.

End Bot.

(** ** Webhook endpoints *)

Record Response : Type := mkResponse {
  status : Z;
  body : string
}.

(** [web.Response(text=...)]: the status defaults to 200. *)
Definition web_Response (text : string) : Response := mkResponse 200 text.

Section Webhook.

(** The JSON decoder of the request and [Update.de_json] belong to the
    libraries; both may raise, and [de_json] may return [None]. *)
Variable JSON : Type.
Variable request_json : string -> Res JSON.
Variable de_json : JSON -> Res (option Update).

Definition health_check (request : string) : M Response :=
  ret (web_Response "OK").

Definition telegram_webhook (request : string) : M Response :=
  fun s =>
    match request_json request with
    | Raise e => (Raise e, s, [])
    | Ok payload =>
        match de_json payload with
        | Raise e => (Raise e, s, [])
        | Ok update =>
            (Ok (web_Response "OK"),
             set_queue (update_queue s ++ [update]) s, [])
        end
    end.

End Webhook.

(** A client-error answer: a response whose status is 4xx. *)
Definition client_error (r : Res Response) : bool :=
  match r with
  | Ok resp => (400 <=? status resp) && (status resp <? 500)
  | Raise _ => false
  end.

(** ** Startup: the connection string *)

(** [needle in hay] on strings. *)
Fixpoint contains (needle hay : string) : bool :=
  prefix needle hay
  || match hay with
     | EmptyString => false
     | String _ rest => contains needle rest
     end.

(** [str.lower()], on the bytes of the string: the letters A-Z.  No other
    character lowers to a character of the ASCII text searched below. *)
Definition lower_ascii (c : ascii) : ascii :=
  let n := nat_of_ascii c in
  if ((65 <=? n) && (n <=? 90))%nat then ascii_of_nat (n + 32) else c.

Fixpoint lower (s : string) : string :=
  match s with
  | EmptyString => EmptyString
  | String c rest => String (lower_ascii c) (lower rest)
  end.

(** The connection string handed to [MongoClient], from the value of
    [MONGODB_URI]; [None] when [ValueError] is raised (unset or empty). *)
Definition mongodb_uri (MONGODB_URI : option string) : option string :=
  match MONGODB_URI with
  | None => None
  | Some uri =>
      match uri with
      | EmptyString => None
      | String _ _ =>
          let uri :=
            if negb (contains "retryWrites" uri) then
              if contains "?" uri
              then (uri ++ "&retryWrites=true&w=majority")%string
              else (uri ++ "?retryWrites=true&w=majority")%string
            else uri in
          let uri :=
            if negb (contains "ssl=true" (lower uri)) then
              if contains "?" uri
              then (uri ++ "&ssl=true")%string
              else (uri ++ "?ssl=true")%string
            else uri in
          Some uri
      end
  end.

(** * Properties *)

(** ** The membership gate *)

Definition member_status (s : string) : Prop :=
  s = "member" \/ s = "administrator" \/ s = "creator".

Lemma is_in_MEMBER_STATUSES s :
  is_in s MEMBER_STATUSES = true <-> member_status s.
Proof.
  unfold is_in, MEMBER_STATUSES, member_status; cbn [existsb].
  rewrite !orb_true_iff, !String.eqb_eq. intuition discriminate.
Qed.

(** The provider reports a member status for [user_id] in [channel]. *)
Definition reported_member (env : Env) (user_id : Z) (channel : string) : Prop :=
  exists s, chat_member_status env ("@" ++ channel) user_id = Ok s
            /\ member_status s.

Lemma is_user_member_loop_run env user_id channels s :
  exists b t,
    is_user_member_loop env channels user_id s = (Ok b, s, t)
    /\ (b = true <-> Forall (reported_member env user_id) channels).
Proof.
  induction channels as [|channel rest IH].
  - exists true, []. split; [reflexivity|]. split; auto.
  - cbn [is_user_member_loop].
    unfold bind at 1, try_except, bind at 1, bot_get_chat_member.
    destruct (chat_member_status env ("@" ++ channel) user_id) as [st|e] eqn:Q.
    + destruct (is_in st MEMBER_STATUSES) eqn:Hin; cbn.
      * destruct IH as (b & t & Hrun & Hb). rewrite Hrun.
        exists b, (Called (get_chat_member ("@" ++ channel) user_id) :: t).
        split; [reflexivity|]. rewrite Hb. split.
        -- intros F. constructor; [|exact F]. exists st. split; [exact Q|].
           now apply is_in_MEMBER_STATUSES.
        -- intros F. now inversion F.
      * eexists false, _. split; [reflexivity|]. split; [discriminate|].
        intros F. inversion F as [|? ? (st' & Q' & Hm) _]; subst.
        rewrite Q in Q'. injection Q' as <-.
        apply is_in_MEMBER_STATUSES in Hm. congruence.
    + cbn. eexists false, _. split; [reflexivity|]. split; [discriminate|].
      intros F. inversion F as [|? ? (st' & Q' & _) _]; subst. congruence.
Qed.

(** C2: the gate answers [True] exactly when the provider reports one of
    member, administrator, creator in every required channel; a query that
    raises in any one channel makes it answer [False], whatever the other
    channels say.  It never raises and leaves the store alone. *)
Theorem is_user_member_iff_member_everywhere cfg env user_id s :
  exists b,
    result_of (is_user_member cfg env user_id s) = Ok b
    /\ store_of (is_user_member cfg env user_id s) = s
    /\ (b = true <->
        forall channel, In channel (required_channels cfg) ->
          reported_member env user_id channel)
    /\ ((exists channel e,
           In channel (required_channels cfg)
           /\ chat_member_status env ("@" ++ channel) user_id = Raise e) ->
        b = false).
Proof.
  unfold is_user_member.
  destruct (is_user_member_loop_run env user_id (required_channels cfg) s)
    as (b & t & Hrun & Hb).
  exists b. rewrite Hrun. cbn. rewrite Forall_forall in Hb.
  repeat split; try apply Hb.
  intros (channel & e & Hin & Hraise).
  destruct b; [|reflexivity].
  destruct (proj1 Hb eq_refl channel Hin) as (st & Hst & _).
  cbn in Hst. congruence.
Qed.

(** ** The number draw *)

Lemma randint_range env a b : a <= b -> a <= randint env a b <= b.
Proof.
  intros Hab. unfold randint.
  pose proof (Z.mod_pos_bound (entropy env) (b - a + 1) ltac:(lia)). lia.
Qed.

Lemma size_of_SMALL number : size_of number = "SMALL" <-> number <= 4.
Proof.
  unfold size_of. destruct (Z.leb_spec number 4); split; intros; try lia;
    try reflexivity; discriminate.
Qed.

Lemma size_of_BIG number : size_of number = "BIG" <-> 5 <= number.
Proof.
  unfold size_of. destruct (Z.leb_spec number 4); split; intros; try lia;
    try reflexivity; discriminate.
Qed.

(** ** The prediction workflow *)

(** Both prediction handlers run the same steps on the sender of the
    callback query. *)
Definition prediction_flow (env : Env) (query : CallbackQuery)
    (ptype result image caption again : string) : M unit :=
  call env (answer None false) ;;
  show_sync_animation env query ;;
  add_prediction env (id (from_user query)) ptype result ;;
  update_leaderboard env (id (from_user query)) (username (from_user query)) 1 ;;
  call env (delete SyncMessage) ;;
  _ <- attr (query_message query) "reply_photo" ;;
  call env (reply_photo QueryMessage image caption "HTML"
              [[CallbackButton AGAIN_BUTTON again]]).

Definition color_flow (env : Env) (query : CallbackQuery) : M unit :=
  let color := choice env [RED; GREEN] in
  prediction_flow env query "color" color (color_image color)
    (COLOR_CAPTION_HEAD ++ color ++ CAPTION_FOOT) "color_prediction".

Definition number_flow (env : Env) (query : CallbackQuery) : M unit :=
  let number := randint env 1 10 in
  let size := size_of number in
  prediction_flow env query "number" (number_result number size) (size_image size)
    (NUMBER_CAPTION_HEAD ++ number_result number size ++ CAPTION_FOOT)
    "number_prediction".

Lemma bind_ret_run {A B} (a : A) (k : A -> M B) s : bind (ret a) k s = k a s.
Proof. unfold bind, ret. destruct (k a s) as [[r s2] t2]. reflexivity. Qed.

Lemma handle_color_prediction_flow env update s :
  handle_color_prediction env update s =
  match callback_query update with
  | Some q => color_flow env q s
  | None =>
      (Raise (AttributeError "'NoneType' object has no attribute 'answer'"), s, [])
  end.
Proof.
  unfold handle_color_prediction.
  destruct (callback_query update) as [q|]; [|reflexivity].
  cbn [attr]. now rewrite bind_ret_run.
Qed.

Lemma handle_number_prediction_flow env update s :
  handle_number_prediction env update s =
  match callback_query update with
  | Some q => number_flow env q s
  | None =>
      (Raise (AttributeError "'NoneType' object has no attribute 'answer'"), s, [])
  end.
Proof.
  unfold handle_number_prediction.
  destruct (callback_query update) as [q|]; [|reflexivity].
  cbn [attr]. now rewrite bind_ret_run.
Qed.

(** Effects of the acknowledgement and of the animation. *)
Definition ui_effect (e : Effect) : bool :=
  match e with
  | Called (answer _ _) | Called (reply_text _ _ _ _) | Called (edit_text _ _)
  | CallFailed (answer _ _) _ | CallFailed (reply_text _ _ _ _) _
  | CallFailed (edit_text _ _) _ | Slept _ => true
  | _ => false
  end.

(** A computation that leaves the store alone and only talks to the chat. *)
Definition quiet {A} (m : M A) : Prop :=
  forall s, exists r t, m s = (r, s, t) /\ forallb ui_effect t = true.

Lemma quiet_bind {A B} (m : M A) (k : A -> M B) :
  quiet m -> (forall a, quiet (k a)) -> quiet (bind m k).
Proof.
  intros Hm Hk s. unfold bind.
  destruct (Hm s) as (r & t & -> & Ht). destruct r as [a|e].
  - destruct (Hk a s) as (r' & t' & -> & Ht').
    eexists _, _. split; [reflexivity|].
    rewrite forallb_app, Ht, Ht'. reflexivity.
  - eexists _, _. split; [reflexivity|]. exact Ht.
Qed.

Lemma quiet_call env c :
  ui_effect (Called c) = true -> quiet (call env c).
Proof.
  intros Hc s. unfold call. destruct (telegram env c) as [e|].
  - eexists _, _. split; [reflexivity|].
    destruct c; try discriminate Hc; reflexivity.
  - eexists _, _. split; [reflexivity|]. cbn [forallb]. now rewrite Hc.
Qed.

Lemma quiet_for_each {A} (l : list A) (body : A -> M unit) :
  (forall a, quiet (body a)) -> quiet (for_each l body).
Proof.
  intros Hbody. induction l as [|a rest IH]; cbn [for_each].
  - intros s. exists (Ok tt), []. split; reflexivity.
  - apply quiet_bind; [apply Hbody|]. intros _. exact IH.
Qed.

Lemma quiet_attr {A} (o : option A) name : quiet (attr o name).
Proof. intros s. destruct o; eexists _, _; split; reflexivity. Qed.

Lemma show_sync_animation_run env query : quiet (show_sync_animation env query).
Proof.
  unfold show_sync_animation, SYNC_FRAMES.
  apply quiet_bind; [apply quiet_attr|]. intros _.
  apply quiet_bind; [now apply quiet_call|]. intros _.
  apply quiet_for_each. intros frame.
  apply quiet_bind; [|intros _; now apply quiet_call].
  intros s. exists (Ok tt), [Slept 1]. split; reflexivity.
Qed.

Section Flow.

Variables (env : Env) (query : CallbackQuery).
Variables (ptype result image caption again : string).
Variable s : Store.

Let user := from_user query.

Let record := mkPredictionDoc (id user) ptype result (now env).
Let s1 := set_predictions (predictions_collection s ++ [record]) s.
Let s2 :=
  set_leaderboard
    (update_one (fun d => l_user_id d =? id user)
       (fun d => mkLeaderDoc (l_user_id d) (username user) (l_score d + 1))
       (mkLeaderDoc (id user) (username user) 1)
       (leaderboard_collection s1)) s1.
Let photo :=
  reply_photo QueryMessage image caption "HTML" [[CallbackButton AGAIN_BUTTON again]].
Let run := prediction_flow env query ptype result image caption again s.

(** How the run ends once both writes are done. *)
Definition delivery (r : Res unit) (t : list Effect) : Prop :=
  (exists e, r = Raise e /\ t = [CallFailed (delete SyncMessage) e])
  \/ (exists e, r = Raise e /\ t = [Called (delete SyncMessage); CallFailed photo e])
  \/ (r = Ok tt /\ t = [Called (delete SyncMessage); Called photo]).

(** Every run of the workflow ends in one of four ways: before the writes,
    at the failed insert, at the failed increment, or after both writes. *)
Lemma prediction_flow_cases :
  exists t0, forallb ui_effect t0 = true /\
    ((exists e, run = (Raise e, s, t0))
     \/ (exists e, mongo env predictions_insert_one = Some e
           /\ run = (Raise e, s, t0 ++ [Db predictions_insert_one false]))
     \/ (exists e, mongo env predictions_insert_one = None
           /\ mongo env leaderboard_update_one = Some e
           /\ run = (Raise e, s1,
                     t0 ++ [Db predictions_insert_one true;
                            Db leaderboard_update_one false]))
     \/ (mongo env predictions_insert_one = None
         /\ mongo env leaderboard_update_one = None
         /\ exists r t1,
              run = (r, s2,
                     t0 ++ [Db predictions_insert_one true;
                            Db leaderboard_update_one true] ++ t1)
              /\ delivery r t1)).
Proof.
  subst run user. destruct query as [u d [m|]]; unfold prediction_flow;
    cbn [from_user query_message attr] in *;
    unfold bind, call, add_prediction, update_leaderboard, db;
    (destruct (telegram env (answer None false)) as [e|];
     [exists [CallFailed (answer None false) e]; split; [reflexivity|]; left;
      now exists e|]).
  2:{ exists [Called (answer None false)]. split; [reflexivity|]. left.
      eexists. reflexivity. }
  destruct (show_sync_animation_run env (mkCallbackQuery u d (Some m)) s)
    as (r0 & t & -> & Ht).
  exists (Called (answer None false) :: t). split; [exact Ht|].
  destruct r0 as [[]|e]; [|left; now exists e]. right.
  destruct (mongo env predictions_insert_one) as [e|].
  { left. exists e. split; reflexivity. }
  right. cbn [fst snd].
  destruct (mongo env leaderboard_update_one) as [e|].
  { left. exists e. repeat split; reflexivity. }
  right. split; [reflexivity|]. split; [reflexivity|]. cbn [fst snd ret].
  fold photo.
  destruct (telegram env (delete SyncMessage)) as [e|].
  { eexists _, _. split; [reflexivity|]. left. now exists e. }
  destruct (telegram env photo) as [e|].
  { eexists _, _. split; [reflexivity|]. right; left. now exists e. }
  eexists _, _. split; [reflexivity|]. right; right. now split.
Qed.

End Flow.

(** ** Scores *)

(** The score the leaderboard holds for a user; no entry counts as 0. *)
Definition score_of (user_id : Z) (s : Store) : Z :=
  match find_one (fun d => l_user_id d =? user_id) (leaderboard_collection s) with
  | Some d => l_score d
  | None => 0
  end.

Definition is_db (e : Effect) : bool :=
  match e with Db _ _ => true | _ => false end.

Definition increment (user_id : Z) (uname : option string) (points : Z)
    (coll : list LeaderDoc) : list LeaderDoc :=
  update_one (fun d => l_user_id d =? user_id)
    (fun d => mkLeaderDoc (l_user_id d) uname (l_score d + points))
    (mkLeaderDoc user_id uname points) coll.

Lemma find_increment_same user_id uname points coll :
  find (fun d => l_user_id d =? user_id) (increment user_id uname points coll) =
  match find (fun d => l_user_id d =? user_id) coll with
  | Some d => Some (mkLeaderDoc (l_user_id d) uname (l_score d + points))
  | None => Some (mkLeaderDoc user_id uname points)
  end.
Proof.
  unfold increment. induction coll as [|d rest IH]; cbn.
  - now rewrite Z.eqb_refl.
  - destruct (l_user_id d =? user_id) eqn:E; cbn; rewrite E; [reflexivity|exact IH].
Qed.

Lemma find_increment_other user_id other uname points coll :
  other <> user_id ->
  find (fun d => l_user_id d =? other) (increment user_id uname points coll) =
  find (fun d => l_user_id d =? other) coll.
Proof.
  intros Hne. unfold increment. induction coll as [|d rest IH]; cbn.
  - destruct (Z.eqb_spec user_id other); [congruence|reflexivity].
  - destruct (Z.eqb_spec (l_user_id d) user_id) as [E|E]; cbn.
    + rewrite E. destruct (Z.eqb_spec user_id other); [congruence|reflexivity].
    + destruct (l_user_id d =? other); [reflexivity|exact IH].
Qed.

Lemma ui_effects_no_db t : forallb ui_effect t = true -> filter is_db t = [].
Proof.
  induction t as [|e t IH]; [reflexivity|]. cbn [forallb filter].
  intros H. apply andb_true_iff in H as [He Ht].
  destruct e as [c|c x| | |]; try discriminate He; cbn; auto.
Qed.

Section FlowCompleted.

Variables (env : Env) (query : CallbackQuery).
Variables (ptype result image caption again : string).
Variable s : Store.

Let user := from_user query.

Let run := prediction_flow env query ptype result image caption again s.

(** A run that returns has done both writes, once each, and nothing else
    to the store. *)
Lemma prediction_flow_completed :
  result_of run = Ok tt ->
  predictions_collection (store_of run) =
    predictions_collection s
      ++ [mkPredictionDoc (id user) ptype result (now env)]
  /\ leaderboard_collection (store_of run) =
       increment (id user) (username user) 1 (leaderboard_collection s)
  /\ users_collection (store_of run) = users_collection s
  /\ update_queue (store_of run) = update_queue s
  /\ filter is_db (effects_of run) =
       [Db predictions_insert_one true; Db leaderboard_update_one true].
Proof.
  subst run.
  destruct (prediction_flow_cases env query ptype result image caption again s)
    as (t0 & Ht0 & [(e & ->)|[(e & _ & ->)|[(e & _ & _ & ->)|(_ & _ & r & t1 & -> & D)]]]);
    cbn [result_of store_of effects_of fst snd]; try discriminate.
  intros ->. repeat split.
  rewrite filter_app, (ui_effects_no_db _ Ht0).
  destruct D as [(e & ? & _)|[(e & ? & _)|(_ & ->)]]; try discriminate.
  reflexivity.
Qed.

End FlowCompleted.

Lemma score_after_increment user_id uname s s' :
  leaderboard_collection s' = increment user_id uname 1 (leaderboard_collection s) ->
  score_of user_id s' = score_of user_id s + 1
  /\ forall other, other <> user_id -> score_of other s' = score_of other s.
Proof.
  intros E. unfold score_of, find_one. rewrite E. split.
  - rewrite find_increment_same.
    destruct (find _ (leaderboard_collection s)); cbn; lia.
  - intros other Hne. now rewrite find_increment_other.
Qed.

(** C3: a prediction handler that completes has appended exactly one
    record, owned by the sender, and has raised the sender's score by
    exactly 1 through one [update_one] with [$inc]; the other scores and
    the users are untouched, whatever was drawn. *)
Theorem completed_prediction_one_record_one_point cfg env h update args s :
  h = h_color_prediction \/ h = h_number_prediction ->
  result_of (run_handler cfg env h update args s) = Ok tt ->
  exists q record,
    callback_query update = Some q
    /\ p_user_id record = id (from_user q)
    /\ predictions_collection (store_of (run_handler cfg env h update args s)) =
         predictions_collection s ++ [record]
    /\ score_of (id (from_user q)) (store_of (run_handler cfg env h update args s)) =
         score_of (id (from_user q)) s + 1
    /\ (forall other, other <> id (from_user q) ->
          score_of other (store_of (run_handler cfg env h update args s)) =
          score_of other s)
    /\ users_collection (store_of (run_handler cfg env h update args s)) =
         users_collection s
    /\ filter is_db (effects_of (run_handler cfg env h update args s)) =
         [Db predictions_insert_one true; Db leaderboard_update_one true].
Proof.
  intros [-> | ->]; cbn [run_handler];
    [rewrite handle_color_prediction_flow | rewrite handle_number_prediction_flow];
    (destruct (callback_query update) as [q|]; [|discriminate]);
    intros Hok;
    [unfold color_flow in * | unfold number_flow in *];
    cbv zeta in *;
    apply prediction_flow_completed in Hok as (Hp & Hl & Hu & _ & Hdb);
    destruct (score_after_increment _ _ _ _ Hl) as [Hs Ho];
    (eexists q, _; repeat split; [| exact Hp | exact Hs | exact Ho | exact Hu | exact Hdb ]);
    reflexivity.
Qed.

(** ** What a run shows to the user *)

Definition is_logged (e : Effect) : bool :=
  match e with Logged _ => true | _ => false end.

Definition is_photo (e : Effect) : bool :=
  match e with Called (reply_photo _ _ _ _ _) => true | _ => false end.

Definition is_delete (e : Effect) : bool :=
  match e with Called (delete _) => true | _ => false end.

Definition is_failed_write (e : Effect) : bool :=
  match e with
  | Db predictions_insert_one false | Db leaderboard_update_one false => true
  | _ => false
  end.

Lemma ui_effects_exclude (p : Effect -> bool) t :
  (forall e, ui_effect e = true -> p e = false) ->
  forallb ui_effect t = true -> existsb p t = false.
Proof.
  intros Hp. induction t as [|e t IH]; [reflexivity|]. cbn [forallb existsb].
  intros H. apply andb_true_iff in H as [He Ht].
  now rewrite (Hp e He), (IH Ht).
Qed.

Lemma ui_not_logged e : ui_effect e = true -> is_logged e = false.
Proof. destruct e as [c|c x| | |]; try discriminate; reflexivity. Qed.

Lemma ui_not_photo e : ui_effect e = true -> is_photo e = false.
Proof. destruct e as [[]|[] x| | |]; try discriminate; reflexivity. Qed.

Lemma ui_not_delete e : ui_effect e = true -> is_delete e = false.
Proof. destruct e as [[]|[] x| | |]; try discriminate; reflexivity. Qed.

Lemma ui_not_failed_write e : ui_effect e = true -> is_failed_write e = false.
Proof. destruct e as [c|c x| | |]; try discriminate; reflexivity. Qed.

Section FlowFailed.

Variables (env : Env) (query : CallbackQuery).
Variables (ptype result image caption again : string).
Variable s : Store.

Let user := from_user query.

Let run := prediction_flow env query ptype result image caption again s.
Let record := mkPredictionDoc (id user) ptype result (now env).

(** A run in which one of the two writes raised stops there. *)
Lemma prediction_flow_failed_write :
  existsb is_failed_write (effects_of run) = true ->
  exists e t0,
    result_of run = Raise e
    /\ forallb ui_effect t0 = true
    /\ ((mongo env predictions_insert_one = Some e
         /\ effects_of run = t0 ++ [Db predictions_insert_one false]
         /\ store_of run = s)
        \/ (mongo env leaderboard_update_one = Some e
            /\ effects_of run =
                 t0 ++ [Db predictions_insert_one true; Db leaderboard_update_one false]
            /\ store_of run =
                 set_predictions (predictions_collection s ++ [record]) s)).
Proof.
  subst run record.
  destruct (prediction_flow_cases env query ptype result image caption again s)
    as (t0 & Ht0 & [(e & ->)|[(e & He & ->)|[(e & _ & He & ->)|(_ & _ & r & t1 & -> & D)]]]);
    cbn [result_of store_of effects_of fst snd]; intros Hw.
  - now rewrite (ui_effects_exclude _ _ ui_not_failed_write Ht0) in Hw.
  - exists e, t0. repeat split; auto.
  - exists e, t0. repeat split; auto.
  - rewrite existsb_app, (ui_effects_exclude _ _ ui_not_failed_write Ht0) in Hw.
    destruct D as [(e & _ & ->)|[(e & _ & ->)|(_ & ->)]]; discriminate Hw.
Qed.

(** A successful photo only ever comes last, with the image and caption of
    the draw. *)
Lemma prediction_flow_photo photo cap mode kb :
  In (Called (reply_photo QueryMessage photo cap mode kb)) (effects_of run) ->
  photo = image /\ cap = caption.
Proof.
  subst run record.
  destruct (prediction_flow_cases env query ptype result image caption again s)
    as (t0 & Ht0 & [(e & ->)|[(e & He & ->)|[(e & _ & He & ->)|(_ & _ & r & t1 & -> & D)]]]);
    cbn [effects_of snd]; intros Hin;
    repeat (apply in_app_or in Hin as [Hin|Hin]);
    try (rewrite forallb_forall in Ht0; now apply Ht0 in Hin);
    try (cbn in Hin; intuition discriminate).
  destruct D as [(e & _ & ->)|[(e & _ & ->)|(_ & ->)]];
    cbn in Hin; intuition try discriminate.
  all: match goal with H : Called _ = Called _ |- _ => now inversion H end.
Qed.

Lemma prediction_flow_records d :
  In d (predictions_collection (store_of run)) ->
  In d (predictions_collection s) \/ d = record.
Proof.
  subst run record.
  destruct (prediction_flow_cases env query ptype result image caption again s)
    as (t0 & Ht0 & [(e & ->)|[(e & He & ->)|[(e & _ & He & ->)|(_ & _ & r & t1 & -> & D)]]]);
    cbn [store_of fst snd set_predictions set_leaderboard predictions_collection];
    auto; intros Hin; apply in_app_or in Hin as [Hin|[<-|[]]]; auto.
Qed.

End FlowFailed.

(** ** Sample runs *)

Definition sample_config : Config :=
  mkConfig "token" 1
    ["Freenethubz"; "megahubbots"; "Freenethubchannel"]
    ["https://t.me/Freenethubz"; "https://t.me/megahubbots";
     "https://t.me/Freenethubchannel"].

Definition alice : User := mkUser 42 (Some "alice") "Alice" None.

(** The bot's own message with the keyboard the user presses. *)
Definition keyboard_message : Message :=
  mkMessage (Some (mkUser 7000000001 (Some "prediction_bot") "Prediction" None))
    "Use the buttons below to get started:".

Definition press (user : User) (action : string) : Update :=
  mkUpdate None (Some (mkCallbackQuery user action (Some keyboard_message))).

Definition command (user : User) (text : string) : Update :=
  mkUpdate (Some (mkMessage (Some user) text)) None.

(** Everything answers; the user is a member everywhere. *)
Definition calm : Env :=
  mkEnv "2024-05-01 12:00:00" 7 (fun _ _ => Ok "member")
    (fun _ => None) (fun _ => None).

(** Everything answers; the user has left every channel. *)
Definition outsider : Env :=
  mkEnv "2024-05-01 12:00:00" 7 (fun _ _ => Ok "left")
    (fun _ => None) (fun _ => None).

(** The insert into [predictions] raises. *)
Definition insert_down : Env :=
  mkEnv "2024-05-01 12:00:00" 7 (fun _ _ => Ok "member")
    (fun _ => None)
    (fun op =>
       match op with
       | predictions_insert_one => Some (PyMongoError "connection closed")
       | _ => None
       end).

(** The increment on [leaderboard] raises. *)
Definition increment_down : Env :=
  mkEnv "2024-05-01 12:00:00" 7 (fun _ _ => Ok "member")
    (fun _ => None)
    (fun op =>
       match op with
       | leaderboard_update_one => Some (PyMongoError "connection closed")
       | _ => None
       end).

(** A month later. *)
Definition later : Env :=
  mkEnv "2024-06-01 09:30:00" 7 (fun _ _ => Ok "member")
    (fun _ => None) (fun _ => None).

Definition is_join_prompt (e : Effect) : bool :=
  match e with
  | Called (reply_text _ text _ _) => String.eqb text JOIN_PROMPT
  | _ => false
  end.

(** ** The prediction handlers and the gate *)

(** C1 (fails on the code): a user who has left every required channel
    presses the color button.  The gate, when asked, answers [False], and
    [how_to_bet] turns the same user away with the join prompt; yet the
    prediction handler never asks: it writes the record, adds the point
    and sends the photo, and no join prompt is sent. *)
Theorem prediction_runs_for_non_member :
  result_of (is_user_member sample_config outsider (id alice) empty_store) = Ok false
  /\ existsb is_join_prompt
       (effects_of (how_to_bet sample_config outsider (command alice "/howtobet")
                      empty_store)) = true
  /\ result_of (handle_color_prediction outsider (press alice "color_prediction")
                  empty_store) = Ok tt
  /\ predictions_collection
       (store_of (handle_color_prediction outsider (press alice "color_prediction")
                    empty_store))
     = [mkPredictionDoc 42 "color" GREEN "2024-05-01 12:00:00"]
  /\ leaderboard_collection
       (store_of (handle_color_prediction outsider (press alice "color_prediction")
                    empty_store))
     = [mkLeaderDoc 42 (Some "alice") 1]
  /\ existsb is_photo
       (effects_of (handle_color_prediction outsider (press alice "color_prediction")
                      empty_store)) = true
  /\ existsb is_join_prompt
       (effects_of (handle_color_prediction outsider (press alice "color_prediction")
                      empty_store)) = false
  /\ result_of (handle_number_prediction outsider (press alice "number_prediction")
                  empty_store) = Ok tt
  /\ predictions_collection
       (store_of (handle_number_prediction outsider (press alice "number_prediction")
                    empty_store))
     = [mkPredictionDoc 42 "number" "8 (BIG)" "2024-05-01 12:00:00"].
Proof. vm_compute. repeat split. Qed.

(** ** The user upsert *)

(** C5 (fails on the code): [add_user] for the same id, a month apart and
    under a new first name, leaves one document with the new name and
    balance 0, but its [join_date] is the time of the second call: [$set]
    rewrites every field of the document. *)
Theorem add_user_twice_overwrites_join_date :
  users_collection (store_of (add_user calm alice empty_store))
  = [mkUserDoc 42 (Some "alice") "Alice" None 0 0 "2024-05-01 12:00:00"]
  /\ users_collection
       (store_of (add_user later (mkUser 42 (Some "alice") "Alicia" None)
                    (store_of (add_user calm alice empty_store))))
     = [mkUserDoc 42 (Some "alice") "Alicia" None 0 0 "2024-06-01 09:30:00"].
Proof. vm_compute. split; reflexivity. Qed.

(** ** Store failures during a prediction *)

(** C6 as stated fails: with the insert raising, the color handler ends in
    that exception; nothing is logged and no photo is sent. *)
Lemma failed_insert_stops_color_prediction :
  existsb is_failed_write
    (effects_of (handle_color_prediction insert_down (press alice "color_prediction")
                   empty_store)) = true
  /\ result_of (handle_color_prediction insert_down (press alice "color_prediction")
                  empty_store) = Raise (PyMongoError "connection closed")
  /\ existsb is_logged
       (effects_of (handle_color_prediction insert_down (press alice "color_prediction")
                      empty_store)) = false
  /\ existsb is_photo
       (effects_of (handle_color_prediction insert_down (press alice "color_prediction")
                      empty_store)) = false.
Proof. vm_compute. repeat split. Qed.

(** C6, amended: when the insert or the increment raises during a
    prediction, the handler ends in that exception right after the
    acknowledgement and the animation; it logs nothing, does not delete
    the placeholder and sends no photo.  After a failed insert the store
    is as before; after a failed increment it holds the new record. *)
Theorem failed_write_ends_prediction cfg env h update args s :
  h = h_color_prediction \/ h = h_number_prediction ->
  existsb is_failed_write (effects_of (run_handler cfg env h update args s)) = true ->
  exists e,
    result_of (run_handler cfg env h update args s) = Raise e
    /\ existsb is_logged (effects_of (run_handler cfg env h update args s)) = false
    /\ existsb is_delete (effects_of (run_handler cfg env h update args s)) = false
    /\ existsb is_photo (effects_of (run_handler cfg env h update args s)) = false
    /\ ((mongo env predictions_insert_one = Some e
         /\ store_of (run_handler cfg env h update args s) = s)
        \/ (mongo env leaderboard_update_one = Some e
            /\ exists record,
                 store_of (run_handler cfg env h update args s) =
                 set_predictions (predictions_collection s ++ [record]) s)).
Proof.
  intros [-> | ->]; cbn [run_handler];
    [rewrite handle_color_prediction_flow | rewrite handle_number_prediction_flow];
    (destruct (callback_query update) as [q|]; [|discriminate]);
    [unfold color_flow | unfold number_flow]; cbv zeta; intros Hw;
    apply prediction_flow_failed_write in Hw
      as (e & t0 & Hr & Ht0 & [(Hm & -> & Hs)|(Hm & -> & Hs)]);
    exists e; rewrite !existsb_app,
      (ui_effects_exclude _ _ ui_not_logged Ht0),
      (ui_effects_exclude _ _ ui_not_delete Ht0),
      (ui_effects_exclude _ _ ui_not_photo Ht0);
    (repeat split; [exact Hr|]);
    [left | right | left | right]; (split; [exact Hm|]); eauto.
Qed.

(** ** The leaderboard *)

Definition score_ge (a b : LeaderDoc) : Prop := l_score b <= l_score a.

(** The Bot API calls a run attempted, in order. *)
Definition attempts (t : list Effect) : list Call :=
  flat_map (fun e =>
              match e with
              | Called c | CallFailed c _ => [c]
              | _ => []
              end) t.

(** The lines of the leaderboard message, top to bottom. *)
Definition leaderboard_lines (entries : list (Z * LeaderDoc)) : string :=
  fold_right (fun entry below => (leaderboard_line entry ++ below)%string) "" entries.

Lemma string_app_assoc (a b c : string) :
  ((a ++ b) ++ c = a ++ (b ++ c))%string.
Proof. induction a as [|x a IH]; cbn; [reflexivity|now rewrite IH]. Qed.

Lemma string_app_nil_r (a : string) : (a ++ "" = a)%string.
Proof. induction a as [|x a IH]; cbn; [reflexivity|now rewrite IH]. Qed.

Lemma leaderboard_text_lines data :
  leaderboard_text data
  = (LEADERBOARD_HEAD ++ leaderboard_lines (enumerate data 1))%string.
Proof.
  unfold leaderboard_text, leaderboard_lines.
  generalize LEADERBOARD_HEAD as head. generalize (enumerate data 1) as entries.
  induction entries as [|entry rest IH]; intros head; cbn [fold_left fold_right].
  - now rewrite string_app_nil_r.
  - now rewrite IH, string_app_assoc.
Qed.

Lemma enumerate_fst {A} (l : list A) start :
  map fst (enumerate l start)
  = map (fun i => start + Z.of_nat i) (seq 0 (List.length l)).
Proof.
  revert start. induction l as [|a rest IH]; intros start; [reflexivity|].
  cbn [enumerate map List.length seq fst]. f_equal; [lia|].
  rewrite IH, <- seq_shift, map_map. apply map_ext. intros i. lia.
Qed.

Lemma enumerate_snd {A} (l : list A) start : map snd (enumerate l start) = l.
Proof.
  revert start. induction l as [|a rest IH]; intros start; [reflexivity|].
  cbn [enumerate map snd]. now rewrite IH.
Qed.

Lemma insert_desc_perm d l : Permutation (d :: l) (insert_desc d l).
Proof.
  induction l as [|x rest IH]; cbn [insert_desc]; [reflexivity|].
  destruct (l_score x <=? l_score d); [reflexivity|].
  rewrite perm_swap. now constructor.
Qed.

Lemma sort_desc_perm l : Permutation l (sort_desc l).
Proof.
  induction l as [|d rest IH]; cbn [sort_desc fold_right]; [constructor|].
  fold (sort_desc rest). rewrite <- insert_desc_perm. now constructor.
Qed.

Lemma insert_desc_sorted d l :
  StronglySorted score_ge l -> StronglySorted score_ge (insert_desc d l).
Proof.
  induction 1 as [|x rest Hs IH Hx]; cbn [insert_desc].
  - repeat constructor.
  - destruct (Z.leb_spec (l_score x) (l_score d)) as [Hle|Hgt].
    + constructor; [now constructor|]. constructor; [exact Hle|].
      eapply Forall_impl; [|exact Hx]. unfold score_ge. intros; lia.
    + constructor; [exact IH|].
      rewrite <- insert_desc_perm. constructor; [unfold score_ge; lia|exact Hx].
Qed.

Lemma sort_desc_sorted l : StronglySorted score_ge (sort_desc l).
Proof.
  induction l as [|d rest IH]; cbn [sort_desc fold_right]; [constructor|].
  now apply insert_desc_sorted.
Qed.

Lemma firstn_sorted n l :
  StronglySorted score_ge l -> StronglySorted score_ge (firstn n l).
Proof.
  intros Hs. revert n. induction Hs as [|x rest Hs IH Hx]; intros [|n]; cbn [firstn];
    try constructor; [apply IH|].
  rewrite Forall_forall in *. intros d Hd. apply Hx.
  rewrite <- (firstn_skipn n rest). apply in_or_app. now left.
Qed.

Lemma sorted_split_ge l1 l2 :
  StronglySorted score_ge (l1 ++ l2) ->
  forall d r, In d l1 -> In r l2 -> l_score r <= l_score d.
Proof.
  induction l1 as [|x rest IH]; cbn [app]; intros Hs d r Hd Hr; [destruct Hd|].
  apply StronglySorted_inv in Hs as [Hs Hx]. destruct Hd as [<-|Hd].
  - rewrite Forall_forall in Hx. apply Hx, in_or_app. now right.
  - now apply (IH Hs).
Qed.

(** C10: the query gives at most ten entries, in non-increasing order of
    score, and they are the best of the collection; the command answers
    with exactly these entries, numbered 1, 2, ... in that order, or with
    the fixed no-users text and no entry when there is none. *)
Theorem leaderboard_top_ten_in_order env update s m :
  mongo env leaderboard_find = None ->
  message update = Some m ->
  let top := firstn 10 (sort_desc (leaderboard_collection s)) in
  result_of (get_leaderboard env s) = Ok top
  /\ (List.length top <= 10)%nat
  /\ StronglySorted score_ge top
  /\ (exists rest,
        Permutation (top ++ rest) (leaderboard_collection s)
        /\ forall d r, In d top -> In r rest -> l_score r <= l_score d)
  /\ store_of (leaderboard env update s) = s
  /\ attempts (effects_of (leaderboard env update s))
     = [reply_text UpdateMessage
          (match top with
           | [] => NO_LEADERBOARD
           | _ => LEADERBOARD_HEAD ++ leaderboard_lines (enumerate top 1)
           end) None None]
  /\ map fst (enumerate top 1)
     = map (fun i => 1 + Z.of_nat i) (seq 0 (List.length top))
  /\ map snd (enumerate top 1) = top.
Proof.
  intros Hdb Hm top.
  split; [unfold get_leaderboard, db; now rewrite Hdb|].
  split; [apply firstn_le_length|].
  split; [apply firstn_sorted, sort_desc_sorted|].
  split.
  { exists (skipn 10 (sort_desc (leaderboard_collection s))). split.
    - subst top. rewrite firstn_skipn. symmetry. apply sort_desc_perm.
    - apply sorted_split_ge. subst top. rewrite firstn_skipn. apply sort_desc_sorted. }
  split; [|split; [|split; [apply enumerate_fst|apply enumerate_snd]]].
  - unfold leaderboard, get_leaderboard, bind, db, call. rewrite Hdb, Hm.
    cbn [fst snd attr ret]. fold top.
    destruct top; cbn [fst snd];
      match goal with |- context [telegram env ?c] => destruct (telegram env c) end;
      reflexivity.
  - unfold leaderboard, get_leaderboard, bind, db, call. rewrite Hdb, Hm.
    cbn [fst snd attr ret]. fold top.
    destruct top as [|d rest] eqn:E; cbn [fst snd];
      match goal with |- context [telegram env ?c] => destruct (telegram env c) end;
      cbn [effects_of snd attempts flat_map app];
      rewrite ?leaderboard_text_lines; reflexivity.
Qed.

(** ** Broadcast *)

(** Whether the send to one user document goes through. *)
Definition send_ok (env : Env) (text : string) (user : UserDoc) : bool :=
  match telegram env (send_message (u_user_id user) text) with
  | None => true
  | Some _ => false
  end.

(** The number of recipients the text reached. *)
Definition delivered (env : Env) (text : string) (users : list UserDoc) : Z :=
  Z.of_nat (List.length (filter (send_ok env text) users)).

(** What the loop of [broadcast] does for one user document. *)
Definition send_effects (env : Env) (text : string) (user : UserDoc) : list Effect :=
  match telegram env (send_message (u_user_id user) text) with
  | None => [Called (send_message (u_user_id user) text)]
  | Some e =>
      [CallFailed (send_message (u_user_id user) text) e;
       Logged ("Failed to send to " ++ str (u_user_id user) ++ ": " ++ str_exn e)]
  end.

Lemma broadcast_loop_run env users text : forall success s,
  broadcast_loop env users text success s
  = (Ok (success + delivered env text users), s,
     flat_map (send_effects env text) users).
Proof.
  induction users as [|user rest IH]; intros success s.
  - cbn. unfold ret, delivered. cbn. now rewrite Z.add_0_r.
  - cbn [broadcast_loop flat_map filter].
    unfold bind at 1, try_except, bind at 1, call, send_effects at 1, send_ok,
      delivered.
    cbn [filter]. unfold send_ok at 1.
    destruct (telegram env (send_message (u_user_id user) text)) as [e|];
      cbn [emit ret bind]; rewrite IH; unfold delivered; cbn [List.length app];
      [reflexivity|].
    do 3 f_equal. lia.
Qed.

Lemma attempts_app t1 t2 : attempts (t1 ++ t2) = (attempts t1 ++ attempts t2)%list.
Proof. unfold attempts. apply flat_map_app. Qed.

Lemma attempts_send_effects env text users :
  attempts (flat_map (send_effects env text) users)
  = map (fun user => send_message (u_user_id user) text) users.
Proof.
  induction users as [|user rest IH]; [reflexivity|].
  cbn [flat_map map]. rewrite attempts_app, IH. unfold send_effects.
  destruct (telegram env (send_message (u_user_id user) text)); reflexivity.
Qed.

Lemma send_effects_no_db env text users :
  filter is_db (flat_map (send_effects env text) users) = [].
Proof.
  induction users as [|user rest IH]; [reflexivity|].
  cbn [flat_map]. rewrite filter_app, IH. unfold send_effects.
  destruct (telegram env (send_message (u_user_id user) text)); reflexivity.
Qed.

(** The effect of one Bot API call, whether it returns or raises. *)
Definition call_effect (env : Env) (c : Call) : Effect :=
  match telegram env c with
  | Some e => CallFailed c e
  | None => Called c
  end.

Definition call_result (env : Env) (c : Call) : Res unit :=
  match telegram env c with
  | Some e => Raise e
  | None => Ok tt
  end.

Lemma call_run env c s : call env c s = (call_result env c, s, [call_effect env c]).
Proof. unfold call, call_result, call_effect. now destruct (telegram env c). Qed.

Lemma broadcast_rejected_run cfg env update args s user m :
  effective_user update = Some user ->
  message update = Some m ->
  id user <> admin_id cfg \/ args = [] ->
  let refusal :=
    reply_text UpdateMessage
      (if id user =? admin_id cfg then BROADCAST_USAGE else BROADCAST_DENIED)
      None None in
  broadcast cfg env update args s
  = (call_result env refusal, s, [call_effect env refusal]).
Proof.
  intros Hu Hm Hrej refusal. subst refusal. unfold broadcast.
  rewrite Hu, Hm. cbn [attr]. rewrite bind_ret_run.
  destruct (Z.eqb_spec (id user) (admin_id cfg)) as [Hadm|Hadm]; cbn [negb].
  - destruct Hrej as [Hne| ->]; [contradiction|].
    now rewrite bind_ret_run, call_run.
  - now rewrite bind_ret_run, call_run.
Qed.

Lemma broadcast_accepted_run cfg env update args s user m :
  effective_user update = Some user ->
  message update = Some m ->
  id user = admin_id cfg -> args <> [] -> mongo env users_find = None ->
  let text := String.concat " " args in
  let report :=
    reply_text UpdateMessage
      (BROADCAST_DONE ++ str (delivered env text (users_collection s)) ++ " users.")
      None None in
  broadcast cfg env update args s
  = (call_result env report, s,
     Db users_find true
     :: flat_map (send_effects env text) (users_collection s)
     ++ [call_effect env report]).
Proof.
  intros Hu Hm Hadm Hargs Hdb text report. subst report. unfold broadcast.
  rewrite Hu, Hm. cbn [attr]. rewrite bind_ret_run.
  rewrite Hadm, Z.eqb_refl. cbn [negb].
  destruct args as [|a rest]; [contradiction|]. fold text.
  unfold bind at 1, db. rewrite Hdb. cbn [fst snd].
  unfold bind at 1. rewrite broadcast_loop_run. cbn [Z.add].
  now rewrite bind_ret_run, call_run.
Qed.

Lemma attempts_call_effect env c : attempts [call_effect env c] = [c].
Proof. unfold call_effect. now destruct (telegram env c). Qed.

Lemma call_effect_no_db env c : filter is_db [call_effect env c] = [].
Proof. unfold call_effect. now destruct (telegram env c). Qed.

(** C7: from a sender who is not the admin, or without text, [broadcast]
    only answers with the refusal: it does not touch the store and sends
    to nobody.  Otherwise it reads the users once, attempts one send per
    user document in order, whatever the earlier sends did, and reports
    the number of sends that went through; the handler then returns as
    soon as that report is delivered. *)
Theorem broadcast_rejects_or_counts cfg env update args s user m :
  effective_user update = Some user ->
  message update = Some m ->
  (id user <> admin_id cfg \/ args = [] ->
   store_of (broadcast cfg env update args s) = s
   /\ filter is_db (effects_of (broadcast cfg env update args s)) = []
   /\ attempts (effects_of (broadcast cfg env update args s))
      = [reply_text UpdateMessage
           (if id user =? admin_id cfg then BROADCAST_USAGE else BROADCAST_DENIED)
           None None])
  /\ (id user = admin_id cfg -> args <> [] -> mongo env users_find = None ->
      store_of (broadcast cfg env update args s) = s
      /\ filter is_db (effects_of (broadcast cfg env update args s))
         = [Db users_find true]
      /\ attempts (effects_of (broadcast cfg env update args s))
         = (map (fun u => send_message (u_user_id u) (String.concat " " args))
              (users_collection s)
            ++ [reply_text UpdateMessage
                  (BROADCAST_DONE
                   ++ str (delivered env (String.concat " " args) (users_collection s))
                   ++ " users.") None None])%list
      /\ (telegram env
            (reply_text UpdateMessage
               (BROADCAST_DONE
                ++ str (delivered env (String.concat " " args) (users_collection s))
                ++ " users.") None None) = None ->
          result_of (broadcast cfg env update args s) = Ok tt)).
Proof.
  intros Hu Hm. split.
  - intros Hrej.
    rewrite (broadcast_rejected_run cfg env update args s user m Hu Hm Hrej).
    cbn [store_of effects_of fst snd].
    now rewrite call_effect_no_db, attempts_call_effect.
  - intros Hadm Hargs Hdb.
    rewrite (broadcast_accepted_run cfg env update args s user m Hu Hm Hadm Hargs Hdb).
    cbn [store_of effects_of result_of fst snd filter is_db].
    rewrite filter_app, send_effects_no_db, call_effect_no_db.
    change (Db users_find true :: ?l) with ([Db users_find true] ++ l)%list.
    rewrite !attempts_app, attempts_send_effects, attempts_call_effect.
    repeat split. intros Hok. unfold call_result. now rewrite Hok.
Qed.

(** Three stored users; the send to the second one raises. *)
Definition three_users : Store :=
  mkStore
    [mkUserDoc 101 (Some "ann") "Ann" None 0 0 "2024-04-01 08:00:00";
     mkUserDoc 102 None "Ben" None 0 0 "2024-04-02 08:00:00";
     mkUserDoc 103 (Some "cy") "Cy" None 0 0 "2024-04-03 08:00:00"]
    [] [] [].

Definition second_blocked : Env :=
  mkEnv "2024-05-01 12:00:00" 7 (fun _ _ => Ok "member")
    (fun c =>
       match c with
       | send_message 102 _ => Some (TelegramError "Forbidden: bot was blocked by the user")
       | _ => None
       end)
    (fun _ => None).

Definition admin : User := mkUser 1 (Some "boss") "Boss" None.

(** The spec's example as a run: three users, the second send raises. *)
Lemma broadcast_three_users_second_fails :
  result_of (broadcast sample_config second_blocked
               (command admin "/broadcast hello all") ["hello"; "all"] three_users)
  = Ok tt
  /\ attempts (effects_of (broadcast sample_config second_blocked
                             (command admin "/broadcast hello all") ["hello"; "all"]
                             three_users))
     = [send_message 101 "hello all"; send_message 102 "hello all";
        send_message 103 "hello all";
        reply_text UpdateMessage (BROADCAST_DONE ++ "2 users.") None None].
Proof.
  destruct (broadcast_rejects_or_counts sample_config second_blocked
              (command admin "/broadcast hello all") ["hello"; "all"] three_users
              admin (mkMessage (Some admin) "/broadcast hello all")
              eq_refl eq_refl) as [_ Hacc].
  destruct (Hacc eq_refl ltac:(discriminate) eq_refl) as (_ & _ & Hsent & Hret).
  split; [apply Hret; reflexivity | exact Hsent].
Defined.

(** ** Frames: what a handler leaves alone *)

(** A computation that does not change the part [part] of the store. *)
Definition keeps {A X} (part : Store -> X) (m : M A) : Prop :=
  forall s, part (store_of (m s)) = part s.

(** The two collections a prediction writes. *)
Definition activity (s : Store) : list PredictionDoc * list LeaderDoc :=
  (predictions_collection s, leaderboard_collection s).

Lemma keeps_ret {A X} (part : Store -> X) (a : A) : keeps part (ret a).
Proof. intros s. reflexivity. Qed.

Lemma keeps_raise {A X} (part : Store -> X) e : keeps part (@raise A e).
Proof. intros s. reflexivity. Qed.

Lemma keeps_emit {X} (part : Store -> X) e : keeps part (emit e).
Proof. intros s. reflexivity. Qed.

Lemma keeps_attr {A X} (part : Store -> X) (o : option A) name :
  keeps part (attr o name).
Proof. destruct o; [apply keeps_ret|apply keeps_raise]. Qed.

Lemma keeps_call {X} (part : Store -> X) env c : keeps part (call env c).
Proof. intros s. unfold call. destruct (telegram env c); reflexivity. Qed.

Lemma keeps_bot_get_chat_member {X} (part : Store -> X) env chat user_id :
  keeps part (bot_get_chat_member env chat user_id).
Proof.
  intros s. unfold bot_get_chat_member.
  destruct (chat_member_status env chat user_id); reflexivity.
Qed.

Lemma keeps_bind {A B X} (part : Store -> X) (m : M A) (k : A -> M B) :
  keeps part m -> (forall a, keeps part (k a)) -> keeps part (bind m k).
Proof.
  intros Hm Hk s. specialize (Hm s). unfold bind.
  destruct (m s) as [[[a|e] s1] t1]; cbn [store_of fst snd] in *; [|exact Hm].
  specialize (Hk a s1). destruct (k a s1) as [[r s2] t2].
  cbn [store_of fst snd] in *. congruence.
Qed.

Lemma keeps_try_except {A X} (part : Store -> X) (m : M A) (h : exn -> M A) :
  keeps part m -> (forall e, keeps part (h e)) -> keeps part (try_except m h).
Proof.
  intros Hm Hh s. specialize (Hm s). unfold try_except.
  destruct (m s) as [[[a|e] s1] t1]; cbn [store_of fst snd] in *; [exact Hm|].
  specialize (Hh e s1). destruct (h e s1) as [[r s2] t2].
  cbn [store_of fst snd] in *. congruence.
Qed.

Lemma keeps_db {A X} (part : Store -> X) env op (f : Store -> A * Store) :
  (forall s, part (snd (f s)) = part s) -> keeps part (db env op f).
Proof.
  intros Hf s. unfold db. destruct (mongo env op); cbn [store_of fst snd];
    [reflexivity|apply Hf].
Qed.

Lemma keeps_for_each {A X} (part : Store -> X) (l : list A) body :
  (forall a, keeps part (body a)) -> keeps part (for_each l body).
Proof.
  intros Hb. induction l as [|a rest IH]; cbn [for_each];
    [apply keeps_ret|apply keeps_bind; auto].
Qed.

Lemma keeps_comprehension {A B X} (part : Store -> X) (l : list A) (f : A -> M B) :
  (forall a, keeps part (f a)) -> keeps part (comprehension l f).
Proof.
  intros Hf. induction l as [|a rest IH]; cbn [comprehension]; [apply keeps_ret|].
  apply keeps_bind; [apply Hf|]. intros b.
  apply keeps_bind; [exact IH|]. intros bs. apply keeps_ret.
Qed.

(** After [m], a continuation that keeps [part] leaves it as [m] left it. *)
Lemma keeps_after {A B X} (part : Store -> X) (m : M A) (k : A -> M B) s :
  (forall a, keeps part (k a)) ->
  part (store_of (bind m k s)) = part (store_of (m s)).
Proof.
  intros Hk. unfold bind.
  destruct (m s) as [[[a|e] s1] t1]; cbn [store_of fst snd]; [|reflexivity].
  specialize (Hk a s1). destruct (k a s1) as [[r s2] t2]. exact Hk.
Qed.

Ltac keeps_step :=
  first
    [ apply keeps_ret | apply keeps_raise | apply keeps_emit | apply keeps_attr
    | apply keeps_call | apply keeps_bot_get_chat_member
    | apply keeps_bind; [|intros ?]
    | apply keeps_try_except; [|intros ?]
    | apply keeps_db; intros ?; reflexivity
    | apply keeps_for_each; intros ?
    | apply keeps_comprehension; intros ?
    | match goal with
      | |- keeps _ (if ?b then _ else _) => destruct b
      | |- keeps _ (match ?x with _ => _ end) => destruct x
      end ].

Lemma keeps_is_user_member {X} (part : Store -> X) cfg env user_id :
  keeps part (is_user_member cfg env user_id).
Proof.
  unfold is_user_member.
  induction (required_channels cfg) as [|channel rest IH]; cbn [is_user_member_loop].
  - apply keeps_ret.
  - apply keeps_bind; [repeat keeps_step|].
    intros [b|]; [apply keeps_ret|exact IH].
Qed.

Lemma keeps_ask_user_to_join {X} (part : Store -> X) cfg env update :
  keeps part (ask_user_to_join cfg env update).
Proof. unfold ask_user_to_join, join_button. repeat keeps_step. Qed.

Lemma keeps_add_user env user : keeps activity (add_user env user).
Proof. unfold add_user. repeat keeps_step. Qed.

(** What [start] does once the user is stored. *)
Lemma keeps_start_after_add_user {X} (part : Store -> X) cfg env update user :
  keeps part
    (member <- is_user_member cfg env (id user) ;;
     if negb member then ask_user_to_join cfg env update
     else
       _ <- attr (message update) "reply_text" ;;
       call env
         (reply_text UpdateMessage WELCOME_TEXT
            (Some [[CallbackButton COLOR_BUTTON "color_prediction"];
                   [CallbackButton NUMBER_BUTTON "number_prediction"]]) None)).
Proof.
  apply keeps_bind; [apply keeps_is_user_member|]. intros member.
  destruct member; cbn [negb]; [repeat keeps_step|apply keeps_ask_user_to_join].
Qed.

Lemma keeps_start {X} (part : Store -> X) cfg env update :
  (forall user, keeps part (add_user env user)) ->
  keeps part (start cfg env update).
Proof.
  intros Hadd. unfold start.
  apply keeps_bind; [apply keeps_attr|]. intros user.
  apply keeps_bind; [apply Hadd|]. intros _.
  apply keeps_start_after_add_user.
Qed.

Lemma keeps_broadcast_loop {X} (part : Store -> X) env users text : forall success,
  keeps part (broadcast_loop env users text success).
Proof.
  induction users as [|user rest IH]; intros success; cbn [broadcast_loop].
  - apply keeps_ret.
  - apply keeps_bind; [repeat keeps_step|]. intros n. apply IH.
Qed.

(** No handler but the two prediction handlers writes anything else than a
    user document, and only [start], also when entered from
    [verify_membership], writes that. *)
Lemma keeps_handlers {X} (part : Store -> X) cfg env h update args :
  (h = h_start \/ h = h_verify_membership ->
   forall user, keeps part (add_user env user)) ->
  h <> h_color_prediction -> h <> h_number_prediction ->
  keeps part (run_handler cfg env h update args).
Proof.
  intros Hadd Hc Hn. destruct h; try contradiction; cbn [run_handler].
  - apply keeps_start. auto.
  - unfold how_to_bet.
    apply keeps_bind; [apply keeps_attr|]. intros user.
    apply keeps_bind; [apply keeps_is_user_member|]. intros member.
    destruct member; cbn [negb]; [repeat keeps_step|apply keeps_ask_user_to_join].
  - unfold profile, get_user_stats.
    apply keeps_bind; [apply keeps_attr|]. intros user.
    apply keeps_bind; [apply keeps_is_user_member|]. intros member.
    destruct member; cbn [negb]; [|apply keeps_ask_user_to_join].
    apply keeps_bind; [repeat keeps_step|]. intros [user_data count].
    repeat keeps_step.
  - unfold leaderboard, get_leaderboard. repeat keeps_step.
  - unfold broadcast.
    apply keeps_bind; [apply keeps_attr|]. intros user.
    destruct (negb _); [repeat keeps_step|].
    destruct args; [repeat keeps_step|].
    apply keeps_bind; [repeat keeps_step|]. intros users.
    apply keeps_bind; [apply keeps_broadcast_loop|]. intros n. repeat keeps_step.
  - unfold stats. repeat keeps_step.
  - unfold contact_us. repeat keeps_step.
  - unfold verify_membership.
    apply keeps_bind; [apply keeps_attr|]. intros query.
    apply keeps_bind; [apply keeps_is_user_member|]. intros member.
    destruct member; [|apply keeps_call].
    apply keeps_bind; [apply keeps_attr|]. intros _.
    apply keeps_bind; [apply keeps_call|]. intros _. apply keeps_start. auto.
Qed.

Lemma keeps_other_handlers cfg env h update args s :
  h <> h_color_prediction -> h <> h_number_prediction ->
  predictions_collection (store_of (run_handler cfg env h update args s))
  = predictions_collection s
  /\ leaderboard_collection (store_of (run_handler cfg env h update args s))
     = leaderboard_collection s.
Proof.
  intros Hc Hn.
  pose proof (keeps_handlers activity cfg env h update args
                (fun _ => keeps_add_user env) Hc Hn s) as H.
  unfold activity in H. now inversion H.
Qed.

(** ** Reachable stores *)

Definition has_user (u : Z) (s : Store) : Prop :=
  In u (map u_user_id (users_collection s)).

Definition has_prediction (u : Z) (s : Store) : Prop :=
  In u (map p_user_id (predictions_collection s)).

Definition has_leader (u : Z) (s : Store) : Prop :=
  In u (map l_user_id (leaderboard_collection s)).

(** The stores the bot can be in: it starts empty; a registered handler
    runs on some update, under an environment that [allowed] admits, and
    whatever it wrote stays, also when it ends in an exception; the
    webhook receives some request. *)
Inductive reachable (cfg : Config) (allowed : Env -> Prop) : Store -> Prop :=
| reach_empty : reachable cfg allowed empty_store
| reach_handler s env h update args :
    reachable cfg allowed s -> allowed env ->
    reachable cfg allowed (store_of (run_handler cfg env h update args s))
| reach_webhook s (JSON : Type) request_json de_json request :
    reachable cfg allowed s ->
    reachable cfg allowed
      (store_of (telegram_webhook JSON request_json de_json request s)).

Definition any_env (env : Env) : Prop := True.

(** The increment on the leaderboard does not raise. *)
Definition increment_works (env : Env) : Prop :=
  mongo env leaderboard_update_one = None.

Lemma leader_ids_increment u user_id uname points coll :
  In u (map l_user_id (increment user_id uname points coll))
  <-> u = user_id \/ In u (map l_user_id coll).
Proof.
  unfold increment. induction coll as [|d rest IH]; cbn.
  - intuition.
  - destruct (Z.eqb_spec (l_user_id d) user_id) as [E|E]; cbn.
    + rewrite E. intuition.
    + rewrite IH. intuition.
Qed.

Lemma webhook_keeps (JSON : Type) rj dj request s :
  predictions_collection (store_of (telegram_webhook JSON rj dj request s))
  = predictions_collection s
  /\ leaderboard_collection (store_of (telegram_webhook JSON rj dj request s))
     = leaderboard_collection s.
Proof.
  unfold telegram_webhook. destruct (rj request) as [payload|e]; [|now split].
  destruct (dj payload); now split.
Qed.

(** What one prediction does to the two collections. *)
Lemma prediction_flow_step env query ptype result image caption again s :
  let s' := store_of (prediction_flow env query ptype result image caption again s) in
  (predictions_collection s' = predictions_collection s
   /\ leaderboard_collection s' = leaderboard_collection s)
  \/ (exists record,
        p_user_id record = id (from_user query)
        /\ predictions_collection s' = predictions_collection s ++ [record]
        /\ ((leaderboard_collection s' = leaderboard_collection s
             /\ ~ increment_works env)
            \/ leaderboard_collection s'
               = increment (id (from_user query)) (username (from_user query)) 1
                   (leaderboard_collection s))).
Proof.
  destruct (prediction_flow_cases env query ptype result image caption again s)
    as (t0 & Ht0 & [(e & ->)|[(e & _ & ->)|[(e & _ & He & ->)|(_ & _ & r & t1 & -> & D)]]]);
    cbn [store_of fst snd]; auto; right; eexists; (split; [|split]);
    try reflexivity; cbn; auto.
  left. split; [reflexivity|]. unfold increment_works. congruence.
Qed.

Lemma handler_step cfg env h update args s :
  let s' := store_of (run_handler cfg env h update args s) in
  (predictions_collection s' = predictions_collection s
   /\ leaderboard_collection s' = leaderboard_collection s)
  \/ (exists user_id uname record,
        p_user_id record = user_id
        /\ predictions_collection s' = predictions_collection s ++ [record]
        /\ ((leaderboard_collection s' = leaderboard_collection s
             /\ ~ increment_works env)
            \/ leaderboard_collection s'
               = increment user_id uname 1 (leaderboard_collection s))).
Proof.
  destruct h;
    try (left; apply keeps_other_handlers; discriminate);
    cbn [run_handler];
    [rewrite handle_color_prediction_flow | rewrite handle_number_prediction_flow];
    (destruct (callback_query update) as [q|]; [|left; now split]);
    [unfold color_flow | unfold number_flow]; cbv zeta;
    match goal with
    | |- context [prediction_flow ?e ?u ?a ?b ?c ?d ?f ?s] =>
        destruct (prediction_flow_step e u a b c d f s) as [H|(record & H)]
    end; auto; right; eauto.
Qed.

(** C4 as stated fails twice: a user who never ran [start] presses the
    color button and gets a record and a leaderboard entry without a user
    document; and when the increment raises, the record is there without a
    leaderboard entry. *)
Lemma prediction_without_user_document :
  reachable sample_config any_env
    (store_of (run_handler sample_config calm h_color_prediction
                 (press alice "color_prediction") [] empty_store))
  /\ has_prediction 42
       (store_of (run_handler sample_config calm h_color_prediction
                    (press alice "color_prediction") [] empty_store))
  /\ has_leader 42
       (store_of (run_handler sample_config calm h_color_prediction
                    (press alice "color_prediction") [] empty_store))
  /\ users_collection
       (store_of (run_handler sample_config calm h_color_prediction
                    (press alice "color_prediction") [] empty_store)) = []
  /\ reachable sample_config any_env
       (store_of (run_handler sample_config increment_down h_color_prediction
                    (press alice "color_prediction") [] empty_store))
  /\ has_prediction 42
       (store_of (run_handler sample_config increment_down h_color_prediction
                    (press alice "color_prediction") [] empty_store))
  /\ leaderboard_collection
       (store_of (run_handler sample_config increment_down h_color_prediction
                    (press alice "color_prediction") [] empty_store)) = [].
Proof.
  split; [apply reach_handler; [apply reach_empty|exact I]|].
  split; [vm_compute; auto|]. split; [vm_compute; auto|]. split; [reflexivity|].
  split; [apply reach_handler; [apply reach_empty|exact I]|].
  split; [vm_compute; auto|reflexivity].
Qed.

(** ** User documents *)

(** The collection [add_user] leaves. *)
Definition upsert_user (env : Env) (user : User) (coll : list UserDoc)
    : list UserDoc :=
  update_one (fun d => u_user_id d =? id user)
    (fun d => mkUserDoc (u_user_id d) (username user) (first_name user)
                (last_name user) 0 0 (now env))
    (mkUserDoc (id user) (username user) (first_name user)
       (last_name user) 0 0 (now env))
    coll.

Lemma upsert_user_ids env user coll :
  map u_user_id (upsert_user env user coll) = map u_user_id coll
  \/ (~ In (id user) (map u_user_id coll)
      /\ map u_user_id (upsert_user env user coll)
         = (map u_user_id coll ++ [id user])%list).
Proof.
  unfold upsert_user. induction coll as [|d rest IH]; cbn [update_one map app].
  - right. split; [intros []|reflexivity].
  - destruct (Z.eqb_spec (u_user_id d) (id user)) as [E|E]; cbn [map u_user_id].
    + now left.
    + destruct IH as [-> | [Hnot ->]]; [now left|right].
      split; [|reflexivity]. intros [H|H]; [congruence|contradiction].
Qed.

Lemma upsert_user_unique env user coll :
  NoDup (map u_user_id coll) -> NoDup (map u_user_id (upsert_user env user coll)).
Proof.
  intros Hn. destruct (upsert_user_ids env user coll) as [-> | [Hnot ->]];
    [exact Hn|].
  apply NoDup_app; [exact Hn|repeat constructor; intros []|].
  intros a Ha [<-|[]]. contradiction.
Qed.

Lemma users_after_add_user env user s :
  users_collection (store_of (add_user env user s)) = users_collection s
  \/ users_collection (store_of (add_user env user s))
     = upsert_user env user (users_collection s).
Proof.
  unfold add_user, db. destruct (mongo env users_update_one); [now left|now right].
Qed.

Lemma users_after_start cfg env update s :
  users_collection (store_of (start cfg env update s)) = users_collection s
  \/ exists user,
       users_collection (store_of (start cfg env update s))
       = upsert_user env user (users_collection s).
Proof.
  unfold start. destruct (effective_user update) as [user|]; [|now left].
  cbn [attr]. rewrite bind_ret_run.
  rewrite (keeps_after users_collection)
    by (intros _; apply keeps_start_after_add_user).
  destruct (users_after_add_user env user s) as [-> | ->]; eauto.
Qed.

Lemma users_after_prediction env query ptype result image caption again s :
  users_collection
    (store_of (prediction_flow env query ptype result image caption again s))
  = users_collection s.
Proof.
  destruct (prediction_flow_cases env query ptype result image caption again s)
    as (t0 & Ht0 & [(e & ->)|[(e & _ & ->)|[(e & _ & He & ->)|(_ & _ & r & t1 & -> & D)]]]);
    reflexivity.
Qed.

Lemma users_after_handler cfg env h update args s :
  users_collection (store_of (run_handler cfg env h update args s))
  = users_collection s
  \/ exists user,
       users_collection (store_of (run_handler cfg env h update args s))
       = upsert_user env user (users_collection s).
Proof.
  destruct h;
    try (left;
         apply (keeps_handlers users_collection);
         [intros [?|?]; discriminate|discriminate|discriminate]);
    cbn [run_handler].
  - apply users_after_start.
  - left. rewrite handle_color_prediction_flow.
    destruct (callback_query update); [apply users_after_prediction|reflexivity].
  - left. rewrite handle_number_prediction_flow.
    destruct (callback_query update); [apply users_after_prediction|reflexivity].
  - remember (store_of (verify_membership cfg env update s)) as s' eqn:E.
    assert (Hs' : s' = s \/ s' = store_of (start cfg env update s)).
    { subst s'. unfold verify_membership.
      destruct (callback_query update) as [q|]; [|now left].
      cbn [attr]. rewrite bind_ret_run. unfold bind, is_user_member, call.
      destruct (is_user_member_loop_run env (id (from_user q))
                  (required_channels cfg) s) as (b & t & -> & _).
      destruct b; [|destruct (telegram env _); now left].
      destruct (query_message q); cbn [attr ret raise]; [|now left].
      destruct (telegram env _); [now left|]. right.
      destruct (start cfg env update s) as [[r s2] t2]. reflexivity. }
    destruct Hs' as [-> | ->]; [now left|apply users_after_start].
Qed.

(** In every reachable store the user documents have pairwise distinct
    ids: a user id is stored once. *)
Lemma reachable_user_ids_unique cfg allowed s :
  reachable cfg allowed s -> NoDup (map u_user_id (users_collection s)).
Proof.
  induction 1 as [|s env h update args Hs IH Henv|s JSON rj dj request Hs IH].
  - constructor.
  - destruct (users_after_handler cfg env h update args s) as [-> | (user & ->)];
      [exact IH|now apply upsert_user_unique].
  - unfold telegram_webhook. destruct (rj request) as [payload|e]; [|exact IH].
    destruct (dj payload); exact IH.
Qed.

(** Whatever the store held, the document [add_user] leaves for the user
    carries the time of this very call and a zero balance. *)
Lemma add_user_rewrites_document env user s :
  mongo env users_update_one = None ->
  exists d,
    find_one (fun d => u_user_id d =? id user)
      (users_collection (store_of (add_user env user s))) = Some d
    /\ u_first_name d = first_name user
    /\ u_balance d = 0
    /\ u_join_date d = now env.
Proof.
  intros Hdb. unfold add_user, db, find_one. rewrite Hdb.
  cbn [store_of fst snd set_users users_collection].
  induction (users_collection s) as [|d rest IH]; cbn [update_one find].
  - rewrite Z.eqb_refl. eexists. repeat split.
  - destruct (u_user_id d =? id user) eqn:E; cbn [find u_user_id].
    + rewrite E. eexists. repeat split.
    + rewrite E. exact IH.
Qed.

(** ** The webhook *)

(** The request body does not parse into an update. *)
Definition parse_fails (JSON : Type) (request_json : string -> Res JSON)
    (de_json : JSON -> Res (option Update)) (request : string) : Prop :=
  (exists e, request_json request = Raise e)
  \/ (exists payload e, request_json request = Ok payload /\ de_json payload = Raise e).

(** A toy decoder: a lone brace is not JSON, a list is not an update. *)
Definition toy_json (request : string) : Res string :=
  if String.eqb request "{" then
    Raise (JSONDecodeError "Expecting property name enclosed in double quotes")
  else Ok request.

Definition toy_de_json (payload : string) : Res (option Update) :=
  if String.eqb payload "[]" then
    Raise (TypeError "list indices must be integers or slices, not str")
  else if String.eqb payload "{}" then Ok None
  else Ok (Some (command alice payload)).

(** C9 as stated fails: on a body that is not JSON the endpoint ends in the
    decoder's exception; it answers with no status of its own, so with no
    client-error status. *)
Lemma malformed_body_gets_no_client_error :
  parse_fails string toy_json toy_de_json "{"
  /\ result_of (telegram_webhook string toy_json toy_de_json "{" empty_store)
     = Raise (JSONDecodeError "Expecting property name enclosed in double quotes")
  /\ client_error
       (result_of (telegram_webhook string toy_json toy_de_json "{" empty_store))
     = false.
Proof.
  split; [left; eexists; reflexivity|]. split; reflexivity.
Qed.

(** C9, amended: when the body does not parse, the endpoint builds no
    response, the exception of the parser leaves it, and nothing is
    enqueued: the queue, like the rest of the store, is as before. *)
Theorem unparsable_request_is_not_enqueued
    (JSON : Type) request_json de_json request s :
  parse_fails JSON request_json de_json request ->
  exists e,
    result_of (telegram_webhook JSON request_json de_json request s) = Raise e
    /\ client_error
         (result_of (telegram_webhook JSON request_json de_json request s)) = false
    /\ update_queue (store_of (telegram_webhook JSON request_json de_json request s))
       = update_queue s
    /\ List.length
         (update_queue (store_of (telegram_webhook JSON request_json de_json request s)))
       = List.length (update_queue s)
    /\ store_of (telegram_webhook JSON request_json de_json request s) = s.
Proof.
  unfold telegram_webhook.
  intros [(e & ->)|(payload & e & -> & ->)]; exists e; repeat split.
Qed.

(** ** The theorems at work on the sample runs *)

Lemma unparsable_request_sample :
  update_queue (store_of (telegram_webhook string toy_json toy_de_json "[]" three_users))
  = update_queue three_users.
Proof.
  destruct (unparsable_request_is_not_enqueued string toy_json toy_de_json "[]"
              three_users
              (or_intror (ex_intro _ "[]" (ex_intro _ _ (conj eq_refl eq_refl)))))
    as (e & _ & _ & Hq & _).
  exact Hq.
Defined.

Lemma completed_prediction_sample :
  score_of 42
    (store_of (run_handler sample_config calm h_color_prediction
                 (press alice "color_prediction") [] empty_store))
  = score_of 42 empty_store + 1.
Proof.
  destruct (completed_prediction_one_record_one_point sample_config calm
              h_color_prediction (press alice "color_prediction") [] empty_store
              (or_introl eq_refl) eq_refl)
    as (q & record & Hq & _ & _ & Hscore & _).
  injection Hq as <-. exact Hscore.
Defined.

Lemma failed_write_sample :
  existsb is_photo
    (effects_of (run_handler sample_config increment_down h_number_prediction
                   (press alice "number_prediction") [] empty_store))
  = false.
Proof.
  destruct (failed_write_ends_prediction sample_config increment_down
              h_number_prediction (press alice "number_prediction") [] empty_store
              (or_intror eq_refl) eq_refl)
    as (e & _ & _ & _ & Hphoto & _).
  exact Hphoto.
Defined.

(** Twelve entries, out of order. *)
Definition crowded_board : Store :=
  mkStore [] []
    [mkLeaderDoc 1 (Some "ann") 3; mkLeaderDoc 2 None 12; mkLeaderDoc 3 (Some "cy") 7;
     mkLeaderDoc 4 (Some "dee") 1; mkLeaderDoc 5 (Some "eli") 9; mkLeaderDoc 6 (Some "fay") 7;
     mkLeaderDoc 7 (Some "gus") 2; mkLeaderDoc 8 (Some "hal") 5; mkLeaderDoc 9 (Some "ivy") 4;
     mkLeaderDoc 10 (Some "jo") 6; mkLeaderDoc 11 (Some "kit") 8; mkLeaderDoc 12 (Some "lu") 10]
    [].

Lemma leaderboard_sample :
  attempts (effects_of (leaderboard calm (command alice "/leaderboard") crowded_board))
  = [reply_text UpdateMessage
       (LEADERBOARD_HEAD
        ++ "1. None: 12 points" ++ nl ++ "2. lu: 10 points" ++ nl
        ++ "3. eli: 9 points" ++ nl ++ "4. kit: 8 points" ++ nl
        ++ "5. cy: 7 points" ++ nl ++ "6. fay: 7 points" ++ nl
        ++ "7. jo: 6 points" ++ nl ++ "8. hal: 5 points" ++ nl
        ++ "9. ivy: 4 points" ++ nl ++ "10. ann: 3 points" ++ nl)
       None None].
Proof.
  destruct (leaderboard_top_ten_in_order calm (command alice "/leaderboard")
              crowded_board (mkMessage (Some alice) "/leaderboard") eq_refl eq_refl)
    as (_ & _ & _ & _ & _ & Hreply & _).
  exact Hreply.
Defined.

(** * Further properties of the handlers *)

(** ** The gate, query by query *)

(** The provider reports a member status for the user in this channel. *)
Definition channel_ok (env : Env) (user_id : Z) (channel : string) : bool :=
  match chat_member_status env ("@" ++ channel) user_id with
  | Ok status => is_in status MEMBER_STATUSES
  | Raise _ => false
  end.

(** The answer of the gate. *)
Definition gate (cfg : Config) (env : Env) (user_id : Z) : bool :=
  forallb (channel_ok env user_id) (required_channels cfg).

(** The channels the loop gets to: up to the first one that fails. *)
Fixpoint asked_channels (env : Env) (user_id : Z) (channels : list string)
    : list string :=
  match channels with
  | [] => []
  | channel :: rest =>
      channel :: (if channel_ok env user_id channel
                  then asked_channels env user_id rest else [])
  end.

(** What the loop does for one channel. *)
Definition query_effects (env : Env) (user_id : Z) (channel : string)
    : list Effect :=
  match chat_member_status env ("@" ++ channel) user_id with
  | Ok _ => [Called (get_chat_member ("@" ++ channel) user_id)]
  | Raise e =>
      [CallFailed (get_chat_member ("@" ++ channel) user_id) e;
       Logged ("Error checking membership for " ++ str user_id
               ++ " in " ++ channel ++ ": " ++ str_exn e)]
  end.

Definition gate_effects (cfg : Config) (env : Env) (user_id : Z) : list Effect :=
  flat_map (query_effects env user_id)
    (asked_channels env user_id (required_channels cfg)).

Lemma is_user_member_loop_trace env user_id channels s :
  is_user_member_loop env channels user_id s
  = (Ok (forallb (channel_ok env user_id) channels), s,
     flat_map (query_effects env user_id) (asked_channels env user_id channels)).
Proof.
  induction channels as [|channel rest IH]; [reflexivity|].
  cbn [is_user_member_loop forallb asked_channels flat_map].
  unfold bind at 1, try_except, bind at 1, bot_get_chat_member, query_effects at 1.
  change (channel_ok env user_id channel)
    with (match chat_member_status env ("@" ++ channel) user_id with
          | Ok status => is_in status MEMBER_STATUSES
          | Raise _ => false
          end).
  destruct (chat_member_status env ("@" ++ channel) user_id) as [st|e];
    [destruct (is_in st MEMBER_STATUSES)|];
    cbn -[is_in str String.append]; rewrite ?IH; reflexivity.
Qed.

Lemma is_user_member_run cfg env user_id s :
  is_user_member cfg env user_id s
  = (Ok (gate cfg env user_id), s, gate_effects cfg env user_id).
Proof. apply is_user_member_loop_trace. Qed.

Lemma asked_channels_split env user_id channels :
  exists skipped,
    channels = (asked_channels env user_id channels ++ skipped)%list
    /\ forallb (channel_ok env user_id) (removelast (asked_channels env user_id channels))
       = true
    /\ (skipped <> [] -> forallb (channel_ok env user_id) channels = false).
Proof.
  induction channels as [|channel rest (skipped & Hsplit & Hfront & Hskip)].
  - exists []. repeat split. intros H. now destruct H.
  - cbn [asked_channels forallb].
    destruct (channel_ok env user_id channel) eqn:Hok.
    + exists skipped. split; [cbn; now rewrite <- Hsplit|]. split.
      * destruct (asked_channels env user_id rest) as [|c l] eqn:E; [reflexivity|].
        cbn [removelast forallb] in *. now rewrite Hok.
      * intros Hne. cbn. now apply Hskip.
    + exists rest. repeat split.
Qed.

Lemma attempts_query_effects env user_id channels :
  attempts (flat_map (query_effects env user_id) channels)
  = map (fun channel => get_chat_member ("@" ++ channel) user_id) channels.
Proof.
  induction channels as [|channel rest IH]; [reflexivity|].
  cbn [flat_map map]. rewrite attempts_app, IH. unfold query_effects.
  destruct (chat_member_status env ("@" ++ channel) user_id); reflexivity.
Qed.

(** X1: the gate asks the provider channel by channel, in the configured
    order, and stops at the first channel that is not reported with a
    member status or whose query raises: the channels before it all passed,
    and the channels after it are never asked. *)
Theorem is_user_member_stops_at_first_failure cfg env user_id s :
  exists asked skipped,
    required_channels cfg = (asked ++ skipped)%list
    /\ attempts (effects_of (is_user_member cfg env user_id s))
       = map (fun channel => get_chat_member ("@" ++ channel) user_id) asked
    /\ forallb (channel_ok env user_id) (removelast asked) = true
    /\ (skipped <> [] ->
        result_of (is_user_member cfg env user_id s) = Ok false).
Proof.
  rewrite is_user_member_run. cbn [effects_of result_of fst snd].
  destruct (asked_channels_split env user_id (required_channels cfg))
    as (skipped & Hsplit & Hfront & Hskip).
  exists (asked_channels env user_id (required_channels cfg)), skipped.
  split; [exact Hsplit|]. split; [apply attempts_query_effects|].
  split; [exact Hfront|]. intros Hne. unfold gate. now rewrite Hskip.
Qed.

(** ** The join prompt *)

(** One row per required channel: a button that opens its link. *)
Definition join_rows (channels links : list string) : list (list Button) :=
  map (fun cl => [UrlButton ("Join " ++ fst cl) (snd cl)]) (combine channels links).

Definition join_prompt (cfg : Config) : Call :=
  reply_text UpdateMessage JOIN_PROMPT
    (Some (join_rows (required_channels cfg) (channel_links cfg)
           ++ [[CallbackButton VERIFY_BUTTON "verify_membership"]])%list)
    (Some "Markdown").

(** A reply to [update.message]: without a message the attribute lookup
    raises before anything is sent. *)
Definition reply_run (env : Env) (update : Update) (c : Call) (s : Store)
    : Res unit * Store * list Effect :=
  match message update with
  | None =>
      (Raise (AttributeError "'NoneType' object has no attribute 'reply_text'"),
       s, [])
  | Some _ => (call_result env c, s, [call_effect env c])
  end.

Lemma reply_run_eq env update c s :
  (_ <- attr (message update) "reply_text" ;; call env c) s
  = reply_run env update c s.
Proof.
  unfold reply_run. destruct (message update); cbn [attr]; [|reflexivity].
  now rewrite bind_ret_run, call_run.
Qed.

Lemma skipn_nth_error {A} (l : list A) k x :
  nth_error l k = Some x -> skipn k l = x :: skipn (S k) l.
Proof.
  revert l. induction k as [|k IH]; intros [|a l] H; try discriminate.
  - now injection H as ->.
  - cbn [skipn nth_error] in *. now apply IH.
Qed.

Lemma nth_error_present {A} (l : list A) k :
  (k < List.length l)%nat -> exists x, nth_error l k = Some x.
Proof.
  intros H. destruct (nth_error l k) as [x|] eqn:E; [now exists x|].
  apply nth_error_None in E. lia.
Qed.

Lemma join_buttons_run cfg s : forall n k,
  (k + n <= List.length (required_channels cfg))%nat ->
  (k + n <= List.length (channel_links cfg))%nat ->
  comprehension (seq k n) (join_button cfg) s
  = (Ok (join_rows (firstn n (skipn k (required_channels cfg)))
           (firstn n (skipn k (channel_links cfg)))), s, []).
Proof.
  induction n as [|n IH]; intros k Hc Hl; [reflexivity|].
  cbn [seq comprehension]. unfold bind at 1, join_button at 1.
  destruct (nth_error_present (required_channels cfg) k ltac:(lia)) as (c & Ec).
  destruct (nth_error_present (channel_links cfg) k ltac:(lia)) as (l & El).
  rewrite Ec, El. cbn [ret]. unfold bind at 1.
  rewrite (IH (S k)) by lia.
  rewrite (skipn_nth_error _ _ _ Ec), (skipn_nth_error _ _ _ El).
  reflexivity.
Qed.

Lemma join_buttons_out_of_range cfg s : forall n k,
  (k + n <= List.length (required_channels cfg))%nat ->
  (k <= List.length (channel_links cfg) < k + n)%nat ->
  comprehension (seq k n) (join_button cfg) s
  = (Raise (IndexError "list index out of range"), s, []).
Proof.
  induction n as [|n IH]; intros k Hc Hl; [lia|].
  cbn [seq comprehension]. unfold bind at 1, join_button at 1.
  destruct (nth_error_present (required_channels cfg) k ltac:(lia)) as (c & Ec).
  rewrite Ec.
  destruct (nth_error (channel_links cfg) k) as [l|] eqn:El.
  - cbn [ret]. unfold bind at 1. rewrite (IH (S k)); [reflexivity|lia|].
    assert (k < List.length (channel_links cfg))%nat
      by (apply nth_error_Some; congruence).
    lia.
  - reflexivity.
Qed.

Lemma ask_user_to_join_run cfg env update s :
  ask_user_to_join cfg env update s
  = if (List.length (required_channels cfg) <=? List.length (channel_links cfg))%nat
    then reply_run env update (join_prompt cfg) s
    else (Raise (IndexError "list index out of range"), s, []).
Proof.
  unfold ask_user_to_join.
  destruct (Nat.leb_spec (List.length (required_channels cfg))
              (List.length (channel_links cfg))) as [Hle|Hgt].
  - unfold bind at 1. rewrite join_buttons_run by lia.
    cbn [skipn]. rewrite firstn_all.
    assert (E : join_rows (required_channels cfg)
                  (firstn (List.length (required_channels cfg)) (channel_links cfg))
                = join_rows (required_channels cfg) (channel_links cfg)).
    { unfold join_rows. f_equal. symmetry. apply combine_firstn_l. }
    rewrite E. fold (join_prompt cfg). rewrite reply_run_eq.
    destruct (reply_run env update (join_prompt cfg) s) as [[r s'] t]. reflexivity.
  - unfold bind at 1. rewrite join_buttons_out_of_range; [reflexivity|lia|lia].
Qed.

Lemma join_rows_buttons channels links :
  (List.length channels <= List.length links)%nat ->
  join_rows channels links
  = map (fun cl => [UrlButton ("Join " ++ fst cl) (snd cl)])
      (combine channels (firstn (List.length channels) links))
  /\ List.length (join_rows channels links) = List.length channels
  /\ map fst (combine channels links) = channels.
Proof.
  intros Hle. unfold join_rows. split; [now rewrite <- combine_firstn_l|].
  split; [rewrite length_map, length_combine; lia|].
  revert links Hle. induction channels as [|c rest IH]; intros [|l links] Hle;
    cbn in *; try lia; try reflexivity. f_equal. apply IH. lia.
Qed.

(** X2: with at least as many links as channels, [ask_user_to_join] sends
    one message: the prompt with one link button per required channel, in
    the configured order and labelled with the channel, and the Verify
    button last.  With fewer links than channels it raises [IndexError]
    and sends nothing.  Either way the store is left alone. *)
Theorem ask_user_to_join_prompt cfg env update s m :
  message update = Some m ->
  store_of (ask_user_to_join cfg env update s) = s
  /\ ((List.length (required_channels cfg) <= List.length (channel_links cfg))%nat ->
      effects_of (ask_user_to_join cfg env update s)
      = [call_effect env
           (reply_text UpdateMessage JOIN_PROMPT
              (Some (join_rows (required_channels cfg) (channel_links cfg)
                     ++ [[CallbackButton VERIFY_BUTTON "verify_membership"]])%list)
              (Some "Markdown"))]
      /\ List.length (join_rows (required_channels cfg) (channel_links cfg))
         = List.length (required_channels cfg)
      /\ map fst (combine (required_channels cfg) (channel_links cfg))
         = required_channels cfg)
  /\ ((List.length (channel_links cfg) < List.length (required_channels cfg))%nat ->
      result_of (ask_user_to_join cfg env update s)
      = Raise (IndexError "list index out of range")
      /\ effects_of (ask_user_to_join cfg env update s) = []).
Proof.
  intros Hm. rewrite ask_user_to_join_run. unfold reply_run. rewrite Hm.
  destruct (Nat.leb_spec (List.length (required_channels cfg))
              (List.length (channel_links cfg))) as [Hle|Hgt];
    (split; [reflexivity|]); split; intros H; try lia.
  - split; [reflexivity|]. now apply join_rows_buttons.
  - split; reflexivity.
Qed.

(** A config with a link missing. *)
Definition short_of_links : Config :=
  mkConfig "token" 1 ["Freenethubz"; "megahubbots"] ["https://t.me/Freenethubz"].

Lemma ask_user_to_join_sample :
  result_of (ask_user_to_join short_of_links outsider (command alice "/howtobet")
               empty_store)
  = Raise (IndexError "list index out of range")
  /\ effects_of (ask_user_to_join sample_config outsider (command alice "/howtobet")
                   empty_store)
     = [Called (join_prompt sample_config)].
Proof.
  split.
  - apply (ask_user_to_join_prompt short_of_links outsider (command alice "/howtobet")
             empty_store (mkMessage (Some alice) "/howtobet") eq_refl).
    cbn. lia.
  - apply (ask_user_to_join_prompt sample_config outsider (command alice "/howtobet")
             empty_store (mkMessage (Some alice) "/howtobet") eq_refl).
    cbn. lia.
Defined.

(** ** [start] and [verify_membership] *)

Definition welcome : Call :=
  reply_text UpdateMessage WELCOME_TEXT
    (Some [[CallbackButton COLOR_BUTTON "color_prediction"];
           [CallbackButton NUMBER_BUTTON "number_prediction"]]) None.

(** The answer of a gated command: its own reply for a member, the join
    prompt for anyone else. *)
Definition gated_answer (cfg : Config) (env : Env) (update : Update)
    (user_id : Z) (c : Call) (s : Store) : Res unit * Store * list Effect :=
  if gate cfg env user_id then reply_run env update c s
  else ask_user_to_join cfg env update s.

Lemma gated_answer_store cfg env update user_id c s :
  store_of (gated_answer cfg env update user_id c s) = s.
Proof.
  unfold gated_answer. destruct (gate cfg env user_id).
  - unfold reply_run. now destruct (message update).
  - rewrite ask_user_to_join_run. unfold reply_run.
    destruct (_ <=? _)%nat; [now destruct (message update)|reflexivity].
Qed.

Lemma start_after_add_user_run cfg env update user s :
  (member <- is_user_member cfg env (id user) ;;
   if negb member then ask_user_to_join cfg env update
   else
     _ <- attr (message update) "reply_text" ;;
     call env welcome) s
  = (result_of (gated_answer cfg env update (id user) welcome s), s,
     gate_effects cfg env (id user)
     ++ effects_of (gated_answer cfg env update (id user) welcome s)).
Proof.
  unfold bind at 1. rewrite is_user_member_run.
  pose proof (gated_answer_store cfg env update (id user) welcome s) as Hs.
  unfold gated_answer in *.
  destruct (gate cfg env (id user)); cbn [negb].
  - rewrite reply_run_eq in *.
    destruct (reply_run env update welcome s) as [[r s'] t].
    cbn in Hs. now subst.
  - destruct (ask_user_to_join cfg env update s) as [[r s'] t].
    cbn in Hs. now subst.
Qed.

Lemma start_run cfg env update user s :
  effective_user update = Some user ->
  start cfg env update s
  = match mongo env users_update_one with
    | Some e => (Raise e, s, [Db users_update_one false])
    | None =>
        let s1 := set_users (upsert_user env user (users_collection s)) s in
        (result_of (gated_answer cfg env update (id user) welcome s1), s1,
         Db users_update_one true
         :: gate_effects cfg env (id user)
         ++ effects_of (gated_answer cfg env update (id user) welcome s1))
    end.
Proof.
  intros Hu. unfold start. rewrite Hu. cbn [attr]. rewrite bind_ret_run.
  unfold bind at 1, add_user, db.
  destruct (mongo env users_update_one) as [e|]; [reflexivity|].
  cbn [fst snd]. fold welcome.
  change (update_one _ _ _ (users_collection s))
    with (upsert_user env user (users_collection s)).
  now rewrite start_after_add_user_run.
Qed.

Lemma upsert_user_present env user coll :
  In (id user) (map u_user_id (upsert_user env user coll)).
Proof.
  unfold upsert_user. induction coll as [|d rest IH]; cbn [update_one map].
  - now left.
  - destruct (Z.eqb_spec (u_user_id d) (id user)) as [E|E]; cbn [map u_user_id].
    + now left.
    + now right.
Qed.

Lemma attempts_gate_effects cfg env user_id :
  attempts (gate_effects cfg env user_id)
  = map (fun channel => get_chat_member ("@" ++ channel) user_id)
      (asked_channels env user_id (required_channels cfg)).
Proof. apply attempts_query_effects. Qed.

Lemma gate_effects_no_db cfg env user_id :
  filter is_db (gate_effects cfg env user_id) = [].
Proof.
  unfold gate_effects.
  induction (asked_channels env user_id (required_channels cfg)) as [|c rest IH];
    [reflexivity|].
  cbn [flat_map]. rewrite filter_app, IH. unfold query_effects.
  destruct (chat_member_status env ("@" ++ c) user_id); reflexivity.
Qed.

Lemma gated_answer_effects cfg env update user_id c s m :
  message update = Some m ->
  (List.length (required_channels cfg) <= List.length (channel_links cfg))%nat ->
  gated_answer cfg env update user_id c s
  = (call_result env (if gate cfg env user_id then c else join_prompt cfg), s,
     [call_effect env (if gate cfg env user_id then c else join_prompt cfg)]).
Proof.
  intros Hm Hle. unfold gated_answer. rewrite ask_user_to_join_run.
  apply Nat.leb_le in Hle. rewrite Hle. unfold reply_run. rewrite Hm.
  now destruct (gate cfg env user_id).
Qed.

(** X3: [start] stores the sender before it asks the gate.  When the
    upsert raises, the handler ends in that exception and makes no Bot
    API call at all.  When it returns, the user document is in the store
    whether or not the sender is a member; the only store operation of the
    run is that upsert; then come the membership queries and one reply:
    the welcome keyboard for a member, the join prompt for anyone else. *)
Theorem start_stores_user_before_gate cfg env update user s :
  effective_user update = Some user ->
  (forall e, mongo env users_update_one = Some e ->
     result_of (start cfg env update s) = Raise e
     /\ store_of (start cfg env update s) = s
     /\ effects_of (start cfg env update s) = [Db users_update_one false])
  /\ (mongo env users_update_one = None ->
      has_user (id user) (store_of (start cfg env update s))
      /\ predictions_collection (store_of (start cfg env update s))
         = predictions_collection s
      /\ leaderboard_collection (store_of (start cfg env update s))
         = leaderboard_collection s
      /\ filter is_db (effects_of (start cfg env update s))
         = [Db users_update_one true]
      /\ forall m,
           message update = Some m ->
           (List.length (required_channels cfg)
            <= List.length (channel_links cfg))%nat ->
           attempts (effects_of (start cfg env update s))
           = (map (fun channel => get_chat_member ("@" ++ channel) (id user))
                (asked_channels env (id user) (required_channels cfg))
              ++ [if gate cfg env (id user) then welcome else join_prompt cfg])%list).
Proof.
  intros Hu. rewrite (start_run cfg env update user s Hu). split.
  - intros e He. rewrite He. repeat split.
  - intros Hdb. rewrite Hdb. cbv zeta. cbn [store_of effects_of fst snd].
    split; [apply upsert_user_present|]. split; [reflexivity|].
    split; [reflexivity|]. split.
    + cbn [filter is_db]. rewrite filter_app, gate_effects_no_db. f_equal.
      unfold gated_answer. rewrite ask_user_to_join_run. unfold reply_run.
      destruct (gate cfg env (id user)), (message update),
        (List.length (required_channels cfg) <=? List.length (channel_links cfg))%nat;
        try reflexivity; apply call_effect_no_db.
    + intros m Hm Hle.
      rewrite (gated_answer_effects cfg env update (id user) welcome _ m Hm Hle).
      cbn [effects_of snd].
      change (Db users_update_one true :: ?l) with ([Db users_update_one true] ++ l)%list.
      rewrite !attempts_app, attempts_gate_effects, attempts_call_effect.
      reflexivity.
Qed.

Lemma start_sample :
  has_user 42 (store_of (start sample_config outsider (command alice "/start")
                           empty_store))
  /\ attempts (effects_of (start sample_config outsider (command alice "/start")
                             empty_store))
     = [get_chat_member "@Freenethubz" 42; join_prompt sample_config].
Proof.
  destruct (start_stores_user_before_gate sample_config outsider
              (command alice "/start") alice empty_store eq_refl) as [_ H].
  destruct (H eq_refl) as (Huser & _ & _ & _ & Hcalls).
  split; [exact Huser|].
  apply (Hcalls (mkMessage (Some alice) "/start") eq_refl). cbn. lia.
Defined.

Lemma verify_membership_run cfg env update q s :
  callback_query update = Some q ->
  verify_membership cfg env update s
  = if gate cfg env (id (from_user q)) then
      match query_message q with
      | None =>
          (Raise (AttributeError "'NoneType' object has no attribute 'edit_text'"),
           s, gate_effects cfg env (id (from_user q)))
      | Some _ =>
          match telegram env (edit_text QueryMessage VERIFIED_TEXT) with
          | Some e =>
              (Raise e, s,
               gate_effects cfg env (id (from_user q))
               ++ [CallFailed (edit_text QueryMessage VERIFIED_TEXT) e])
          | None =>
              (result_of (start cfg env update s), store_of (start cfg env update s),
               gate_effects cfg env (id (from_user q))
               ++ Called (edit_text QueryMessage VERIFIED_TEXT)
                  :: effects_of (start cfg env update s))
          end
      end
    else
      (call_result env (answer (Some NOT_JOINED_ALERT) true), s,
       gate_effects cfg env (id (from_user q))
       ++ [call_effect env (answer (Some NOT_JOINED_ALERT) true)]).
Proof.
  intros Hq. unfold verify_membership. rewrite Hq. cbn [attr].
  rewrite bind_ret_run. unfold bind at 1. rewrite is_user_member_run.
  destruct (gate cfg env (id (from_user q))).
  - destruct (query_message q); cbn [attr];
      [|unfold bind, raise; now rewrite app_nil_r].
    rewrite bind_ret_run. unfold bind, call.
    destruct (telegram env (edit_text QueryMessage VERIFIED_TEXT)); [reflexivity|].
    destruct (start cfg env update s) as [[r s'] t]. reflexivity.
  - now rewrite call_run.
Qed.

Lemma asked_all_when_gate_passes cfg env user_id :
  gate cfg env user_id = true ->
  asked_channels env user_id (required_channels cfg) = required_channels cfg.
Proof.
  unfold gate. induction (required_channels cfg) as [|c rest IH]; [reflexivity|].
  cbn [forallb asked_channels]. intros Hg. apply andb_true_iff in Hg as [Hc Hrest].
  now rewrite Hc, IH.
Qed.

(** X4: a press on Verify by someone who is not a member of every channel
    only gets the alert: nothing is stored and no store operation runs.
    A press by a member, on an update that carries the callback query and
    no message, edits the prompt into the confirmation and stores the
    user, but then ends in [AttributeError]: [start] asks the gate a
    second time and has no [update.message] to reply to, so the welcome
    keyboard is never sent.  When the callback query itself carries no
    message, the member's press ends in [AttributeError] right after the
    membership queries, with nothing edited and nothing stored. *)
Theorem verify_membership_outcomes cfg env update q s :
  callback_query update = Some q ->
  message update = None ->
  (gate cfg env (id (from_user q)) = false ->
   store_of (verify_membership cfg env update s) = s
   /\ filter is_db (effects_of (verify_membership cfg env update s)) = []
   /\ attempts (effects_of (verify_membership cfg env update s))
      = (map (fun channel => get_chat_member ("@" ++ channel) (id (from_user q)))
           (asked_channels env (id (from_user q)) (required_channels cfg))
         ++ [answer (Some NOT_JOINED_ALERT) true])%list)
  /\ (gate cfg env (id (from_user q)) = true ->
      (forall prompt, query_message q = Some prompt ->
       telegram env (edit_text QueryMessage VERIFIED_TEXT) = None ->
       mongo env users_update_one = None ->
       result_of (verify_membership cfg env update s)
       = Raise (AttributeError "'NoneType' object has no attribute 'reply_text'")
       /\ has_user (id (from_user q)) (store_of (verify_membership cfg env update s))
       /\ attempts (effects_of (verify_membership cfg env update s))
          = (map (fun channel => get_chat_member ("@" ++ channel) (id (from_user q)))
               (required_channels cfg)
             ++ edit_text QueryMessage VERIFIED_TEXT
                :: map (fun channel => get_chat_member ("@" ++ channel) (id (from_user q)))
                     (required_channels cfg))%list)
      /\ (query_message q = None ->
          result_of (verify_membership cfg env update s)
          = Raise (AttributeError "'NoneType' object has no attribute 'edit_text'")
          /\ store_of (verify_membership cfg env update s) = s
          /\ attempts (effects_of (verify_membership cfg env update s))
             = map (fun channel => get_chat_member ("@" ++ channel) (id (from_user q)))
                 (required_channels cfg))).
Proof.
  intros Hq Hm. rewrite (verify_membership_run cfg env update q s Hq).
  assert (Hu : effective_user update = Some (from_user q))
    by (unfold effective_user; now rewrite Hm, Hq).
  split.
  - intros Hg. rewrite Hg. cbn [store_of effects_of fst snd].
    split; [reflexivity|].
    rewrite filter_app, gate_effects_no_db, call_effect_no_db.
    rewrite attempts_app, attempts_gate_effects, attempts_call_effect.
    split; reflexivity.
  - intros Hg. rewrite Hg. pose proof (asked_all_when_gate_passes _ _ _ Hg) as Hall.
    split.
    + intros prompt Hp Hedit Hdb. rewrite Hp, Hedit.
      rewrite (start_run cfg env update (from_user q) s Hu), Hdb. cbv zeta.
      cbn [result_of store_of effects_of fst snd].
      unfold gated_answer. rewrite Hg. unfold reply_run. rewrite Hm.
      cbn [fst snd]. split; [reflexivity|]. split; [apply upsert_user_present|].
      rewrite app_nil_r.
      change (Called ?c :: Db ?o ?b :: ?l)
        with ([Called c] ++ [Db o b] ++ l)%list.
      rewrite !attempts_app, attempts_gate_effects, Hall. reflexivity.
    + intros Hp. rewrite Hp. cbn [result_of store_of effects_of fst snd].
      split; [reflexivity|]. split; [reflexivity|].
      now rewrite attempts_gate_effects, Hall.
Qed.

Lemma verify_membership_sample :
  result_of (verify_membership sample_config calm (press alice "verify_membership")
               empty_store)
  = Raise (AttributeError "'NoneType' object has no attribute 'reply_text'")
  /\ store_of (verify_membership sample_config outsider
                 (press alice "verify_membership") empty_store)
     = empty_store.
Proof.
  destruct (verify_membership_outcomes sample_config calm
              (press alice "verify_membership")
              (mkCallbackQuery alice "verify_membership" (Some keyboard_message)) empty_store
              eq_refl eq_refl) as [_ Hin].
  destruct (verify_membership_outcomes sample_config outsider
              (press alice "verify_membership")
              (mkCallbackQuery alice "verify_membership" (Some keyboard_message)) empty_store
              eq_refl eq_refl) as [Hout _].
  split; [apply (proj1 (Hin eq_refl) keyboard_message eq_refl eq_refl eq_refl)
         |apply (Hout eq_refl)].
Defined.

(** ** Commands that only read *)

(** X5: [how_to_bet], [profile], [leaderboard], [broadcast], [stats] and
    [contact_us] never change the store, however they end: the three
    collections and the queue are exactly as before. *)
Theorem reading_commands_leave_store cfg env h update args s :
  h <> h_start -> h <> h_verify_membership ->
  h <> h_color_prediction -> h <> h_number_prediction ->
  store_of (run_handler cfg env h update args s) = s.
Proof.
  intros Hs Hv Hc Hn.
  apply (keeps_handlers (fun s => s) cfg env h update args); try assumption.
  intros [->| ->]; contradiction.
Qed.

Lemma reading_commands_sample :
  store_of (run_handler sample_config second_blocked h_broadcast
              (command admin "/broadcast hello all") ["hello"; "all"] three_users)
  = three_users.
Proof.
  apply (reading_commands_leave_store sample_config second_blocked h_broadcast);
    discriminate.
Defined.

Lemma gated_command_run cfg env update user_id c s :
  (member <- is_user_member cfg env user_id ;;
   if negb member then ask_user_to_join cfg env update
   else
     _ <- attr (message update) "reply_text" ;;
     call env c) s
  = (result_of (gated_answer cfg env update user_id c s), s,
     gate_effects cfg env user_id
     ++ effects_of (gated_answer cfg env update user_id c s)).
Proof.
  unfold bind at 1. rewrite is_user_member_run.
  pose proof (gated_answer_store cfg env update user_id c s) as Hs.
  unfold gated_answer in *.
  destruct (gate cfg env user_id); cbn [negb].
  - rewrite reply_run_eq in *.
    destruct (reply_run env update c s) as [[r s'] t].
    cbn in Hs. now subst.
  - destruct (ask_user_to_join cfg env update s) as [[r s'] t].
    cbn in Hs. now subst.
Qed.

Definition how_to_bet_reply : Call :=
  reply_text UpdateMessage HOW_TO_BET_TEXT None (Some "Markdown").

(** X6: [how_to_bet] runs no store operation at all.  After the
    membership queries it sends one message: the betting guide to a
    member, the join prompt to anyone else. *)
Theorem how_to_bet_gated cfg env update user m s :
  effective_user update = Some user ->
  message update = Some m ->
  (List.length (required_channels cfg) <= List.length (channel_links cfg))%nat ->
  filter is_db (effects_of (how_to_bet cfg env update s)) = []
  /\ attempts (effects_of (how_to_bet cfg env update s))
     = (map (fun channel => get_chat_member ("@" ++ channel) (id user))
          (asked_channels env (id user) (required_channels cfg))
        ++ [if gate cfg env (id user) then how_to_bet_reply else join_prompt cfg])%list
  /\ result_of (how_to_bet cfg env update s)
     = call_result env
         (if gate cfg env (id user) then how_to_bet_reply else join_prompt cfg).
Proof.
  intros Hu Hm Hle. unfold how_to_bet. rewrite Hu. cbn [attr].
  rewrite bind_ret_run. fold how_to_bet_reply. rewrite gated_command_run.
  rewrite (gated_answer_effects cfg env update (id user) how_to_bet_reply s m Hm Hle).
  cbn [result_of effects_of fst snd].
  rewrite filter_app, gate_effects_no_db, call_effect_no_db.
  rewrite attempts_app, attempts_gate_effects, attempts_call_effect.
  repeat split.
Qed.

Lemma how_to_bet_sample :
  attempts (effects_of (how_to_bet sample_config calm (command alice "/howtobet")
                          empty_store))
  = [get_chat_member "@Freenethubz" 42; get_chat_member "@megahubbots" 42;
     get_chat_member "@Freenethubchannel" 42; how_to_bet_reply].
Proof.
  destruct (how_to_bet_gated sample_config calm (command alice "/howtobet") alice
              (mkMessage (Some alice) "/howtobet") empty_store eq_refl eq_refl
              ltac:(cbn; lia)) as (_ & Hcalls & _).
  exact Hcalls.
Defined.

Lemma count_all {D} (coll : list D) :
  count_documents (fun _ => true) coll = Z.of_nat (List.length coll).
Proof.
  unfold count_documents. f_equal. f_equal.
  induction coll as [|d rest IH]; [reflexivity|]. cbn. now rewrite IH.
Qed.

Definition stats_reply (users predictions : Z) : Call :=
  reply_text UpdateMessage
    ((STATS_HEAD ++ STATS_USERS ++ str users ++ nl)
     ++ STATS_PREDICTIONS ++ str predictions ++ nl ++ nl)
    None (Some "Markdown").

Lemma stats_run cfg env update user m s :
  effective_user update = Some user ->
  message update = Some m ->
  stats cfg env update s
  = if id user =? admin_id cfg then
      match mongo env users_count_documents with
      | Some e => (Raise e, s, [Db users_count_documents false])
      | None =>
          match mongo env predictions_count_documents with
          | Some e =>
              (Raise e, s,
               [Db users_count_documents true; Db predictions_count_documents false])
          | None =>
              let c := stats_reply (Z.of_nat (List.length (users_collection s)))
                         (Z.of_nat (List.length (predictions_collection s))) in
              (call_result env c, s,
               [Db users_count_documents true; Db predictions_count_documents true;
                call_effect env c])
          end
      end
    else
      (call_result env (reply_text UpdateMessage STATS_DENIED None None), s,
       [call_effect env (reply_text UpdateMessage STATS_DENIED None None)]).
Proof.
  intros Hu Hm. unfold stats. rewrite Hu, Hm. cbn [attr]. rewrite bind_ret_run.
  destruct (id user =? admin_id cfg); cbn [negb].
  - unfold bind at 1, db.
    destruct (mongo env users_count_documents); [reflexivity|]. cbn [fst snd].
    unfold bind at 1.
    destruct (mongo env predictions_count_documents); [reflexivity|]. cbn [fst snd].
    rewrite bind_ret_run, call_run, !count_all. reflexivity.
  - now rewrite bind_ret_run, call_run.
Qed.

(** X7: [stats] from anyone but the admin only answers with the refusal:
    no store operation runs.  From the admin, with both counts returning,
    it reads the two counts and reports the number of user documents and
    the number of prediction records of the store. *)
Theorem stats_admin_only cfg env update user m s :
  effective_user update = Some user ->
  message update = Some m ->
  (id user <> admin_id cfg ->
   filter is_db (effects_of (stats cfg env update s)) = []
   /\ attempts (effects_of (stats cfg env update s))
      = [reply_text UpdateMessage STATS_DENIED None None])
  /\ (id user = admin_id cfg ->
      mongo env users_count_documents = None ->
      mongo env predictions_count_documents = None ->
      filter is_db (effects_of (stats cfg env update s))
      = [Db users_count_documents true; Db predictions_count_documents true]
      /\ attempts (effects_of (stats cfg env update s))
         = [stats_reply (Z.of_nat (List.length (users_collection s)))
              (Z.of_nat (List.length (predictions_collection s)))]).
Proof.
  intros Hu Hm. rewrite (stats_run cfg env update user m s Hu Hm). split.
  - intros Hne. apply Z.eqb_neq in Hne. rewrite Hne. cbn [effects_of snd].
    now rewrite call_effect_no_db, attempts_call_effect.
  - intros He Hc Hp. rewrite He, Z.eqb_refl, Hc, Hp. cbv zeta.
    cbn [effects_of snd].
    change (Db ?a ?b :: Db ?c ?d :: ?l) with ([Db a b; Db c d] ++ l)%list.
    now rewrite filter_app, call_effect_no_db, attempts_app, attempts_call_effect.
Qed.

Lemma stats_sample :
  attempts (effects_of (stats sample_config calm (command admin "/stats") three_users))
  = [stats_reply 3 0]
  /\ attempts (effects_of (stats sample_config calm (command alice "/stats") three_users))
     = [reply_text UpdateMessage STATS_DENIED None None].
Proof.
  destruct (stats_admin_only sample_config calm (command admin "/stats") admin
              (mkMessage (Some admin) "/stats") three_users eq_refl eq_refl)
    as [_ Hadmin].
  destruct (stats_admin_only sample_config calm (command alice "/stats") alice
              (mkMessage (Some alice) "/stats") three_users eq_refl eq_refl)
    as [Hother _].
  split; [apply (Hadmin eq_refl eq_refl eq_refl)|apply Hother; discriminate].
Defined.

(** ** [profile] *)

Definition profile_reply (user : User) (prediction_count : Z) (joined : string)
    : Call :=
  reply_text UpdateMessage
    (PROFILE_ID ++ str (id user)
     ++ PROFILE_NAME ++ first_name user
     ++ PROFILE_USERNAME ++ or_else (username user) "N/A"
     ++ PROFILE_PREDICTIONS ++ str prediction_count
     ++ PROFILE_JOINED ++ joined
     ++ PROFILE_RULE) None None.

(** The number of prediction records of a user, as [get_user_stats]
    counts them. *)
Definition prediction_count_of (user_id : Z) (s : Store) : Z :=
  count_documents (fun d => p_user_id d =? user_id) (predictions_collection s).

Lemma profile_member_run cfg env update user m s :
  effective_user update = Some user ->
  message update = Some m ->
  gate cfg env (id user) = true ->
  profile cfg env update s
  = match mongo env users_find_one with
    | Some e =>
        (Raise e, s, gate_effects cfg env (id user) ++ [Db users_find_one false])
    | None =>
        match mongo env predictions_count_documents with
        | Some e =>
            (Raise e, s,
             gate_effects cfg env (id user)
             ++ [Db users_find_one true; Db predictions_count_documents false])
        | None =>
            match find_one (fun d => u_user_id d =? id user) (users_collection s) with
            | None =>
                (Raise (AttributeError "'NoneType' object has no attribute 'get'"),
                 s,
                 gate_effects cfg env (id user)
                 ++ [Db users_find_one true; Db predictions_count_documents true])
            | Some d =>
                let c := profile_reply user (prediction_count_of (id user) s)
                           (u_join_date d) in
                (call_result env c, s,
                 gate_effects cfg env (id user)
                 ++ [Db users_find_one true; Db predictions_count_documents true;
                     call_effect env c])
            end
        end
    end.
Proof.
  intros Hu Hm Hg. unfold profile. rewrite Hu, Hm. cbn [attr].
  rewrite bind_ret_run. unfold bind at 1. rewrite is_user_member_run, Hg.
  cbn [negb]. unfold get_user_stats, bind, db, ret.
  destruct (mongo env users_find_one); [reflexivity|].
  destruct (mongo env predictions_count_documents); [reflexivity|].
  cbn [fst snd].
  destruct (find_one (fun d => u_user_id d =? id user) (users_collection s));
    cbn [attr ret raise]; [|reflexivity].
  rewrite call_run. reflexivity.
Qed.

(** X8: [profile] for a member, with both reads returning: when the store
    has a document for the sender, the reply shows the sender's id and
    names from the update, the number of the sender's own prediction
    records and the join date of the stored document; when it has none
    (the sender never ran [start]), the handler ends in [AttributeError]
    after the two reads and sends nothing. *)
Theorem profile_shows_own_count cfg env update user m s :
  effective_user update = Some user ->
  message update = Some m ->
  gate cfg env (id user) = true ->
  mongo env users_find_one = None ->
  mongo env predictions_count_documents = None ->
  (forall d,
     find_one (fun d => u_user_id d =? id user) (users_collection s) = Some d ->
     attempts (effects_of (profile cfg env update s))
     = (map (fun channel => get_chat_member ("@" ++ channel) (id user))
          (asked_channels env (id user) (required_channels cfg))
        ++ [profile_reply user
              (Z.of_nat (List.length
                 (filter (fun r => p_user_id r =? id user) (predictions_collection s))))
              (u_join_date d)])%list)
  /\ (find_one (fun d => u_user_id d =? id user) (users_collection s) = None ->
      result_of (profile cfg env update s)
      = Raise (AttributeError "'NoneType' object has no attribute 'get'")
      /\ attempts (effects_of (profile cfg env update s))
         = map (fun channel => get_chat_member ("@" ++ channel) (id user))
             (asked_channels env (id user) (required_channels cfg))).
Proof.
  intros Hu Hm Hg Hf Hc.
  rewrite (profile_member_run cfg env update user m s Hu Hm Hg), Hf, Hc.
  split.
  - intros d Hd. rewrite Hd. cbv zeta. cbn [effects_of snd].
    change (Db ?a ?b :: Db ?c ?e :: ?l) with ([Db a b; Db c e] ++ l)%list.
    now rewrite !attempts_app, attempts_gate_effects, attempts_call_effect.
  - intros Hd. rewrite Hd. cbn [result_of effects_of fst snd].
    split; [reflexivity|].
    now rewrite attempts_app, attempts_gate_effects, app_nil_r.
Qed.

(** Alice after [start] and two predictions. *)
Definition alice_played : Store :=
  mkStore
    [mkUserDoc 42 (Some "alice") "Alice" None 0 0 "2024-04-20 10:00:00"]
    [mkPredictionDoc 42 "color" RED "2024-04-21 10:00:00";
     mkPredictionDoc 7 "number" "3 (SMALL)" "2024-04-21 11:00:00";
     mkPredictionDoc 42 "number" "9 (BIG)" "2024-04-22 10:00:00"]
    [mkLeaderDoc 42 (Some "alice") 2; mkLeaderDoc 7 None 1]
    [].

Lemma profile_sample :
  attempts (effects_of (profile sample_config calm (command alice "/profile")
                          alice_played))
  = [get_chat_member "@Freenethubz" 42; get_chat_member "@megahubbots" 42;
     get_chat_member "@Freenethubchannel" 42;
     profile_reply alice 2 "2024-04-20 10:00:00"]
  /\ result_of (profile sample_config calm (command alice "/profile") empty_store)
     = Raise (AttributeError "'NoneType' object has no attribute 'get'").
Proof.
  destruct (profile_shows_own_count sample_config calm (command alice "/profile")
              alice (mkMessage (Some alice) "/profile") alice_played
              eq_refl eq_refl eq_refl eq_refl eq_refl) as [Hplayed _].
  destruct (profile_shows_own_count sample_config calm (command alice "/profile")
              alice (mkMessage (Some alice) "/profile") empty_store
              eq_refl eq_refl eq_refl eq_refl eq_refl) as [_ Hnew].
  split; [apply (Hplayed _ eq_refl)|apply (Hnew eq_refl)].
Defined.

(** ** The animation *)

Definition call_ok (env : Env) (c : Call) : bool :=
  match telegram env c with
  | None => true
  | Some _ => false
  end.

(** The calls of the animation: the first frame is sent, the others are
    edited in. *)
Definition animation_calls : list Call :=
  match SYNC_FRAMES with
  | [] => []
  | first :: frames =>
      reply_text QueryMessage first None None :: map (edit_text SyncMessage) frames
  end.

(** The animation played to the end: one second before every edit. *)
Definition full_animation : list Effect :=
  match SYNC_FRAMES with
  | [] => []
  | first :: frames =>
      Called (reply_text QueryMessage first None None)
      :: flat_map (fun frame => [Slept 1; Called (edit_text SyncMessage frame)]) frames
  end.

(** How a run over the calls [calls] ends: [passed] are the calls that
    went through, in order; when a call is left, the first one left raised
    and ended the run, with exactly the calls up to it attempted;
    otherwise the run returned with the effects [full]. *)
Definition stops_at_first_failure (env : Env) (calls : list Call)
    (full : list Effect) (r : Res unit) (t : list Effect) : Prop :=
  exists passed left,
    calls = (passed ++ left)%list
    /\ forallb (call_ok env) passed = true
    /\ match left with
       | [] => r = Ok tt /\ t = full
       | c :: _ =>
           exists e, telegram env c = Some e /\ r = Raise e
                     /\ attempts t = (passed ++ [c])%list
       end.

Lemma animation_frames_outcome env frames s :
  exists r t,
    for_each frames
      (fun frame => emit (Slept 1) ;; call env (edit_text SyncMessage frame)) s
    = (r, s, t)
    /\ stops_at_first_failure env (map (edit_text SyncMessage) frames)
         (flat_map (fun frame => [Slept 1; Called (edit_text SyncMessage frame)])
            frames) r t.
Proof.
  set (body := fun frame => emit (Slept 1) ;; call env (edit_text SyncMessage frame)).
  induction frames as [|frame rest (r & t & Hrun & passed & left & Hsplit & Hok & Hend)].
  - exists (Ok tt), []. split; [reflexivity|]. exists [], []. repeat split.
  - cbn [for_each map flat_map].
    unfold bind at 1.
    change (body frame)
      with (emit (Slept 1) ;; call env (edit_text SyncMessage frame)).
    unfold bind at 1, emit, call.
    destruct (telegram env (edit_text SyncMessage frame)) as [e|] eqn:Hcall.
    + eexists _, _. split; [reflexivity|].
      exists [], (edit_text SyncMessage frame :: map (edit_text SyncMessage) rest).
      split; [reflexivity|]. split; [reflexivity|].
      exists e. repeat split. exact Hcall.
    + rewrite Hrun. eexists _, _. split; [reflexivity|].
      exists (edit_text SyncMessage frame :: passed), left.
      split; [cbn; now rewrite Hsplit|].
      split; [cbn [forallb]; unfold call_ok at 1; now rewrite Hcall, Hok|].
      destruct left as [|c left'].
      * destruct Hend as [-> ->]. split; reflexivity.
      * destruct Hend as (e & He & -> & Hatt). exists e. repeat split; auto.
        unfold attempts in *. cbn [flat_map app]. now rewrite Hatt.
Qed.

Lemma show_sync_animation_outcome env query s :
  exists r t,
    show_sync_animation env query s = (r, s, t)
    /\ match query_message query with
       | None =>
           r = Raise (AttributeError "'NoneType' object has no attribute 'reply_text'")
           /\ t = []
       | Some _ => stops_at_first_failure env animation_calls full_animation r t
       end.
Proof.
  unfold show_sync_animation, animation_calls, full_animation, SYNC_FRAMES.
  destruct (query_message query) as [prompt|]; cbn [attr].
  2:{ eexists _, _. split; [reflexivity|split; reflexivity]. }
  rewrite bind_ret_run.
  match goal with |- context [for_each ?fr _] => generalize fr; intros frames end.
  match goal with |- context [reply_text QueryMessage ?f None None] =>
    generalize f; intros first
  end.
  destruct (animation_frames_outcome env frames s)
    as (r & t & Hrun & passed & left & Hsplit & Hok & Hend).
  unfold bind at 1, call at 1.
  destruct (telegram env (reply_text QueryMessage first None None)) as [e|] eqn:Hcall.
  - eexists _, _. split; [reflexivity|].
    exists [], (reply_text QueryMessage first None None
                :: map (edit_text SyncMessage) frames).
    split; [reflexivity|]. split; [reflexivity|]. exists e. repeat split. exact Hcall.
  - rewrite Hrun. eexists _, _. split; [reflexivity|].
    exists (reply_text QueryMessage first None None :: passed), left.
    split; [cbn; now rewrite Hsplit|].
    split; [cbn [forallb]; unfold call_ok at 1; now rewrite Hcall, Hok|].
    destruct left as [|c left'].
    + destruct Hend as [-> ->]. split; reflexivity.
    + destruct Hend as (e & He & -> & Hatt). exists e. repeat split; auto.
      unfold attempts in *. cbn [flat_map app]. now rewrite Hatt.
Qed.

Lemma show_sync_animation_returned env query s s' t :
  show_sync_animation env query s = (Ok tt, s', t) ->
  forallb (call_ok env) animation_calls = true
  /\ exists prompt, query_message query = Some prompt.
Proof.
  intros Hrun.
  destruct (show_sync_animation_outcome env query s) as (r & t' & Hrun' & Hend).
  rewrite Hrun in Hrun'. injection Hrun' as <- <- <-.
  destruct (query_message query) as [prompt|]; [|destruct Hend; discriminate].
  destruct Hend as (passed & left & Hsplit & Hok & Hend).
  destruct left as [|c left']; [|destruct Hend as (e & _ & He & _); discriminate].
  rewrite app_nil_r in Hsplit. rewrite Hsplit. eauto.
Qed.

(** X9: on a callback query that carries its message, the animation sends
    the first frame and edits in the other five, in order, waiting one
    second before each edit.  It returns exactly when all six calls go
    through, and then it has played the full animation; otherwise it ends
    in the exception of the first call that raised, having attempted the
    calls up to that one and none of the later frames.  Without
    [query.message] it ends in [AttributeError] with nothing sent.  The
    store is left alone. *)
Theorem show_sync_animation_all_or_stop env query s :
  store_of (show_sync_animation env query s) = s
  /\ List.length animation_calls = 6%nat
  /\ (query_message query = None ->
      result_of (show_sync_animation env query s)
      = Raise (AttributeError "'NoneType' object has no attribute 'reply_text'")
      /\ effects_of (show_sync_animation env query s) = [])
  /\ (forall prompt, query_message query = Some prompt ->
      exists passed left,
        animation_calls = (passed ++ left)%list
        /\ forallb (call_ok env) passed = true
        /\ match left with
           | [] =>
               result_of (show_sync_animation env query s) = Ok tt
               /\ effects_of (show_sync_animation env query s) = full_animation
           | c :: _ =>
               exists e,
                 telegram env c = Some e
                 /\ result_of (show_sync_animation env query s) = Raise e
                 /\ attempts (effects_of (show_sync_animation env query s))
                    = (passed ++ [c])%list
           end).
Proof.
  destruct (show_sync_animation_outcome env query s) as (r & t & -> & Hend).
  cbn [store_of result_of effects_of fst snd].
  split; [reflexivity|]. split; [reflexivity|]. split.
  - intros Hnone. now rewrite Hnone in Hend.
  - intros prompt Hsome. rewrite Hsome in Hend. exact Hend.
Qed.

Lemma prediction_flow_writes_after_animation
    env query ptype result image caption again s :
  existsb is_db
    (effects_of (prediction_flow env query ptype result image caption again s)) = true ->
  call_ok env (answer None false) = true
  /\ forallb (call_ok env) animation_calls = true.
Proof.
  unfold prediction_flow. unfold bind at 1, call at 1, call_ok at 1.
  destruct (telegram env (answer None false)) as [e|]; [discriminate|].
  unfold bind at 1.
  destruct (show_sync_animation_run env query s) as (r & t & Hrun & Hui).
  rewrite Hrun. destruct r as [[]|e].
  - intros _. split; [reflexivity|].
    now apply (show_sync_animation_returned env query s s t).
  - cbn [effects_of snd app existsb is_db orb].
    rewrite (ui_effects_exclude is_db t); [discriminate| |exact Hui].
    intros [c|c x| | |]; try discriminate; reflexivity.
Qed.

(** X10: a prediction handler touches the store only after the
    acknowledgement and all six animation calls went through: when any of
    them raises, the handler has run no store operation. *)
Theorem prediction_writes_after_animation cfg env h update args s :
  h = h_color_prediction \/ h = h_number_prediction ->
  existsb is_db (effects_of (run_handler cfg env h update args s)) = true ->
  call_ok env (answer None false) = true
  /\ forallb (call_ok env) animation_calls = true.
Proof.
  intros [-> | ->]; cbn [run_handler];
    [rewrite handle_color_prediction_flow | rewrite handle_number_prediction_flow];
    (destruct (callback_query update) as [q|]; [|discriminate]);
    [unfold color_flow | unfold number_flow]; cbv zeta;
    apply prediction_flow_writes_after_animation.
Qed.

Lemma prediction_writes_after_animation_sample :
  call_ok increment_down (answer None false) = true
  /\ forallb (call_ok increment_down) animation_calls = true.
Proof.
  apply (prediction_writes_after_animation sample_config increment_down
           h_number_prediction (press alice "number_prediction") [] empty_store
           (or_intror eq_refl) eq_refl).
Defined.

(** ** Invariants of the reachable stores *)

Lemma prediction_count_append u s s' record :
  predictions_collection s' = (predictions_collection s ++ [record])%list ->
  prediction_count_of u s'
  = prediction_count_of u s + (if p_user_id record =? u then 1 else 0).
Proof.
  intros E. unfold prediction_count_of, count_documents. rewrite E, filter_app.
  rewrite length_app. cbn [filter].
  destruct (p_user_id record =? u); cbn [List.length]; lia.
Qed.

Lemma score_of_same_leaderboard u s s' :
  leaderboard_collection s' = leaderboard_collection s -> score_of u s' = score_of u s.
Proof. intros E. unfold score_of. now rewrite E. Qed.

Lemma prediction_count_same u s s' :
  predictions_collection s' = predictions_collection s ->
  prediction_count_of u s' = prediction_count_of u s.
Proof. intros E. unfold prediction_count_of. now rewrite E. Qed.

(** X11: in every reachable store the score of a user is at least 0 and
    at most the number of that user's prediction records; and as long as
    no increment has raised, the score is exactly that number: the
    leaderboard counts predictions. *)
Theorem score_counts_predictions cfg allowed s :
  reachable cfg allowed s ->
  (forall u, 0 <= score_of u s <= prediction_count_of u s)
  /\ ((forall env, allowed env -> increment_works env) ->
      forall u, score_of u s = prediction_count_of u s).
Proof.
  induction 1 as [|s env h update args Hs [IH1 IH2] Henv
                  |s JSON rj dj request Hs [IH1 IH2]].
  - split; [intros u; cbn; lia|intros _ u; reflexivity].
  - destruct (handler_step cfg env h update args s)
      as [[Hp Hl]|(user_id & uname & record & Hid & Hp & [[Hl Hdown]|Hl])].
    + split; [intros u|intros Hall u];
        rewrite (score_of_same_leaderboard u _ _ Hl), (prediction_count_same u _ _ Hp);
        auto.
    + split.
      * intros u. rewrite (score_of_same_leaderboard u _ _ Hl),
          (prediction_count_append u _ _ _ Hp).
        specialize (IH1 u). destruct (p_user_id record =? u); lia.
      * intros Hall. destruct Hdown. now apply Hall.
    + destruct (score_after_increment _ _ _ _ Hl) as [Hsame Hother].
      assert (Hu : forall u,
                 score_of u (store_of (run_handler cfg env h update args s))
                 = score_of u s + (if p_user_id record =? u then 1 else 0)).
      { intros u. rewrite Hid. destruct (Z.eqb_spec user_id u) as [<-|Hne].
        - exact Hsame.
        - rewrite Hother by congruence. lia. }
      split.
      * intros u. rewrite Hu, (prediction_count_append u _ _ _ Hp).
        specialize (IH1 u). destruct (p_user_id record =? u); lia.
      * intros Hall u. rewrite Hu, (prediction_count_append u _ _ _ Hp).
        now rewrite (IH2 Hall u).
  - destruct (webhook_keeps JSON rj dj request s) as [Hp Hl].
    split; [intros u|intros Hall u];
      rewrite (score_of_same_leaderboard u _ _ Hl), (prediction_count_same u _ _ Hp);
      auto.
Qed.

(** Two presses by Alice from the empty store, with everything up. *)
Definition two_presses : Store :=
  store_of (run_handler sample_config calm h_number_prediction
              (press alice "number_prediction") []
              (store_of (run_handler sample_config calm h_color_prediction
                           (press alice "color_prediction") [] empty_store))).

Lemma two_presses_reachable : reachable sample_config increment_works two_presses.
Proof.
  apply reach_handler; [|reflexivity].
  apply reach_handler; [apply reach_empty|reflexivity].
Qed.

Lemma score_counts_predictions_sample :
  score_of 42 two_presses = prediction_count_of 42 two_presses.
Proof.
  apply (score_counts_predictions sample_config increment_works two_presses
           two_presses_reachable).
  intros env H. exact H.
Defined.

Lemma increment_ids user_id uname points coll :
  map l_user_id (increment user_id uname points coll) = map l_user_id coll
  \/ (~ In user_id (map l_user_id coll)
      /\ map l_user_id (increment user_id uname points coll)
         = (map l_user_id coll ++ [user_id])%list).
Proof.
  unfold increment. induction coll as [|d rest IH]; cbn [update_one map app].
  - right. split; [intros []|reflexivity].
  - destruct (Z.eqb_spec (l_user_id d) user_id) as [E|E]; cbn [map l_user_id].
    + now left.
    + destruct IH as [-> | [Hnot ->]]; [now left|right].
      split; [|reflexivity]. intros [H|H]; [congruence|contradiction].
Qed.

(** X12: in every reachable store each user id has at most one user
    document and at most one leaderboard entry. *)
Theorem reachable_ids_stored_once cfg allowed s :
  reachable cfg allowed s ->
  NoDup (map u_user_id (users_collection s))
  /\ NoDup (map l_user_id (leaderboard_collection s)).
Proof.
  intros Hr. split; [exact (reachable_user_ids_unique cfg allowed s Hr)|].
  induction Hr as [|s env h update args Hs IH Henv|s JSON rj dj request Hs IH].
  - constructor.
  - destruct (handler_step cfg env h update args s)
      as [[_ ->]|(user_id & uname & record & _ & _ & [[-> _]| ->])]; auto.
    destruct (increment_ids user_id uname 1 (leaderboard_collection s))
      as [-> | [Hnot ->]]; [exact IH|].
    apply NoDup_app; [exact IH|repeat constructor; intros []|].
    intros a Ha [<-|[]]. contradiction.
  - now destruct (webhook_keeps JSON rj dj request s) as [_ ->].
Qed.

Lemma reachable_ids_stored_once_sample :
  NoDup (map u_user_id (users_collection two_presses))
  /\ NoDup (map l_user_id (leaderboard_collection two_presses)).
Proof.
  exact (reachable_ids_stored_once sample_config increment_works two_presses
           two_presses_reachable).
Defined.

Lemma upsert_user_keeps_ids env user coll u :
  In u (map u_user_id coll) -> In u (map u_user_id (upsert_user env user coll)).
Proof.
  intros H. destruct (upsert_user_ids env user coll) as [-> | [_ ->]];
    [exact H|apply in_or_app; now left].
Qed.

(** X13: one run of any handler only ever adds: the prediction records of
    before are still there, unchanged and in the same order, with at most
    one new record after them; every stored user and every leaderboard
    entry is still there; and no score has gone down. *)
Theorem handlers_only_add cfg env h update args s :
  (exists added,
     predictions_collection (store_of (run_handler cfg env h update args s))
     = (predictions_collection s ++ added)%list
     /\ (List.length added <= 1)%nat)
  /\ (forall u, has_user u s ->
        has_user u (store_of (run_handler cfg env h update args s)))
  /\ (forall u, has_leader u s ->
        has_leader u (store_of (run_handler cfg env h update args s)))
  /\ (forall u, score_of u s
                <= score_of u (store_of (run_handler cfg env h update args s))).
Proof.
  split; [|split; [|split]].
  - destruct (handler_step cfg env h update args s)
      as [[-> _]|(user_id & uname & record & _ & -> & _)].
    + exists []. split; [now rewrite app_nil_r|cbn; lia].
    + exists [record]. split; [reflexivity|cbn; lia].
  - intros u Hu. unfold has_user in *.
    destruct (users_after_handler cfg env h update args s) as [-> | (user & ->)];
      [exact Hu|now apply upsert_user_keeps_ids].
  - intros u Hu. unfold has_leader in *.
    destruct (handler_step cfg env h update args s)
      as [[_ ->]|(user_id & uname & record & _ & _ & [[-> _]| ->])]; auto.
    apply leader_ids_increment. now right.
  - intros u.
    destruct (handler_step cfg env h update args s)
      as [[_ Hl]|(user_id & uname & record & _ & _ & [[Hl _]|Hl])];
      try (rewrite (score_of_same_leaderboard u _ _ Hl); lia).
    destruct (score_after_increment _ _ _ _ Hl) as [Hsame Hother].
    destruct (Z.eq_dec u user_id) as [->|Hne]; [lia|].
    rewrite Hother by assumption. lia.
Qed.

(** ** The webhook, on a request that parses *)

(** X14: a request that parses is answered with status 200 and body OK,
    and what [de_json] returned, [None] included, is put at the tail of
    the queue; nothing else of the store changes.  Two such requests in a
    row are queued in their order of arrival. *)
Theorem telegram_webhook_enqueues
    (JSON : Type) request_json de_json request payload update s :
  request_json request = Ok payload ->
  de_json payload = Ok update ->
  result_of (telegram_webhook JSON request_json de_json request s)
  = Ok (mkResponse 200 "OK")
  /\ store_of (telegram_webhook JSON request_json de_json request s)
     = set_queue (update_queue s ++ [update]) s
  /\ effects_of (telegram_webhook JSON request_json de_json request s) = []
  /\ forall request' payload' update',
       request_json request' = Ok payload' ->
       de_json payload' = Ok update' ->
       update_queue
         (store_of (telegram_webhook JSON request_json de_json request'
                      (store_of (telegram_webhook JSON request_json de_json request s))))
       = (update_queue s ++ [update; update'])%list.
Proof.
  intros Hj Hd. unfold telegram_webhook. rewrite Hj, Hd.
  repeat split. intros request' payload' update' Hj' Hd'. rewrite Hj', Hd'.
  cbn. now rewrite <- app_assoc.
Qed.

Lemma telegram_webhook_sample :
  update_queue
    (store_of (telegram_webhook string toy_json toy_de_json "{}" three_users))
  = [None].
Proof.
  destruct (telegram_webhook_enqueues string toy_json toy_de_json "{}" "{}" None
              three_users eq_refl eq_refl) as (_ & Hstore & _).
  rewrite Hstore. reflexivity.
Defined.

(** ** The user upsert and the other users *)

Lemma upsert_user_other env user coll other :
  other <> id user ->
  find (fun d => u_user_id d =? other) (upsert_user env user coll)
  = find (fun d => u_user_id d =? other) coll.
Proof.
  intros Hne. unfold upsert_user. induction coll as [|d rest IH]; cbn [update_one find].
  - cbn. destruct (Z.eqb_spec (id user) other); [congruence|reflexivity].
  - destruct (Z.eqb_spec (u_user_id d) (id user)) as [E|E]; cbn [find u_user_id].
    + rewrite E. destruct (Z.eqb_spec (id user) other); [congruence|reflexivity].
    + destruct (u_user_id d =? other); [reflexivity|exact IH].
Qed.

Lemma upsert_user_absent env user coll :
  ~ In (id user) (map u_user_id coll) ->
  upsert_user env user coll
  = (coll ++ [mkUserDoc (id user) (username user) (first_name user)
                (last_name user) 0 0 (now env)])%list.
Proof.
  unfold upsert_user. induction coll as [|d rest IH]; intros Hnot; [reflexivity|].
  cbn [update_one app]. cbn [map In] in Hnot.
  destruct (Z.eqb_spec (u_user_id d) (id user)) as [E|E]; [tauto|].
  rewrite IH; [reflexivity|tauto].
Qed.

Lemma upsert_user_length env user coll :
  In (id user) (map u_user_id coll) ->
  List.length (upsert_user env user coll) = List.length coll.
Proof.
  unfold upsert_user. induction coll as [|d rest IH]; intros Hin; [destruct Hin|].
  cbn [update_one]. destruct (Z.eqb_spec (u_user_id d) (id user)) as [E|E];
    [reflexivity|].
  cbn [List.length]. f_equal. apply IH. destruct Hin as [H|H]; [contradiction|exact H].
Qed.

(** X15: an [add_user] that returns touches one document only: the
    document found for any other user id is the one found before; a
    sender who is new gets a fresh document appended after the others,
    with balance and predictions 0 and the time of the call; for a sender
    already stored no document is added.  Predictions and leaderboard are
    left alone. *)
Theorem add_user_touches_one_document env user s :
  mongo env users_update_one = None ->
  (forall other, other <> id user ->
     find_one (fun d => u_user_id d =? other)
       (users_collection (store_of (add_user env user s)))
     = find_one (fun d => u_user_id d =? other) (users_collection s))
  /\ (~ has_user (id user) s ->
      users_collection (store_of (add_user env user s))
      = (users_collection s
         ++ [mkUserDoc (id user) (username user) (first_name user)
               (last_name user) 0 0 (now env)])%list)
  /\ (has_user (id user) s ->
      List.length (users_collection (store_of (add_user env user s)))
      = List.length (users_collection s))
  /\ predictions_collection (store_of (add_user env user s))
     = predictions_collection s
  /\ leaderboard_collection (store_of (add_user env user s))
     = leaderboard_collection s.
Proof.
  intros Hdb. unfold add_user, db, find_one, has_user. rewrite Hdb.
  cbn [store_of fst snd set_users users_collection predictions_collection
       leaderboard_collection].
  change (update_one _ _ _ (users_collection s))
    with (upsert_user env user (users_collection s)).
  split; [intros other Hne; now apply upsert_user_other|].
  split; [apply upsert_user_absent|].
  split; [apply upsert_user_length|]. split; reflexivity.
Qed.

Lemma add_user_sample :
  users_collection (store_of (add_user later alice three_users))
  = (users_collection three_users
     ++ [mkUserDoc 42 (Some "alice") "Alice" None 0 0 "2024-06-01 09:30:00"])%list.
Proof.
  destruct (add_user_touches_one_document later alice three_users eq_refl)
    as (_ & Hnew & _).
  apply Hnew. vm_compute. intuition discriminate.
Defined.

(** ** The connection string *)

Lemma prefix_app needle a b : prefix needle a = true -> prefix needle (a ++ b) = true.
Proof.
  revert a. induction needle as [|c needle IH]; intros a H;
    [now destruct (a ++ b)%string|].
  destruct a as [|x a]; [discriminate|]. cbn [prefix String.append] in *.
  destruct (ascii_dec c x); [now apply IH|discriminate].
Qed.

Lemma contains_app_l needle a b :
  contains needle a = true -> contains needle (a ++ b) = true.
Proof.
  induction a as [|x a IH]; intros H.
  - cbn [contains] in H. rewrite orb_false_r in H.
    destruct needle; [|discriminate]. now destruct b.
  - cbn [contains String.append] in *. apply orb_true_iff in H as [H|H].
    + change (String x (a ++ b)) with (String x a ++ b)%string.
      now rewrite (prefix_app _ _ _ H).
    + rewrite (IH H). apply orb_true_r.
Qed.

Lemma contains_app_r needle a b :
  contains needle b = true -> contains needle (a ++ b) = true.
Proof.
  intros H. induction a as [|x a IH]; [exact H|].
  cbn [contains String.append]. rewrite IH. apply orb_true_r.
Qed.

Lemma lower_app a b : lower (a ++ b) = (lower a ++ lower b)%string.
Proof. induction a as [|x a IH]; cbn; [reflexivity|now rewrite IH]. Qed.

(** X16: from a non-empty [MONGODB_URI] the connection string is the
    given string with parameters appended at most: it always contains
    [retryWrites], and in lower case [ssl=true]; preparing a prepared
    string again changes nothing.  An unset or empty variable gives no
    connection string. *)
Theorem mongodb_uri_prepared uri :
  uri <> "" ->
  exists out suffix,
    mongodb_uri (Some uri) = Some out
    /\ out = (uri ++ suffix)%string
    /\ contains "retryWrites" out = true
    /\ contains "ssl=true" (lower out) = true
    /\ mongodb_uri (Some out) = Some out
    /\ mongodb_uri None = None
    /\ mongodb_uri (Some "") = None.
Proof.
  intros Hne. destruct uri as [|c rest]; [contradiction|].
  set (uri := String c rest) in *.
  set (step1 :=
         if negb (contains "retryWrites" uri) then
           if contains "?" uri then (uri ++ "&retryWrites=true&w=majority")%string
           else (uri ++ "?retryWrites=true&w=majority")%string
         else uri).
  set (step2 :=
         if negb (contains "ssl=true" (lower step1)) then
           if contains "?" step1 then (step1 ++ "&ssl=true")%string
           else (step1 ++ "?ssl=true")%string
         else step1).
  assert (H1 : exists x, step1 = (uri ++ x)%string
                         /\ contains "retryWrites" step1 = true).
  { subst step1. destruct (contains "retryWrites" uri) eqn:E; cbn [negb].
    - exists "". now rewrite string_app_nil_r.
    - destruct (contains "?" uri); eexists; (split; [reflexivity|]);
        now apply contains_app_r. }
  destruct H1 as (x & Hx & Hr1).
  assert (H2 : exists y, step2 = (step1 ++ y)%string
                         /\ contains "ssl=true" (lower step2) = true).
  { subst step2. destruct (contains "ssl=true" (lower step1)) eqn:E; cbn [negb].
    - exists "". now rewrite string_app_nil_r.
    - destruct (contains "?" step1); eexists; (split; [reflexivity|]);
        rewrite lower_app; now apply contains_app_r. }
  destruct H2 as (y & Hy & Hs2).
  assert (Hr2 : contains "retryWrites" step2 = true)
    by (rewrite Hy; now apply contains_app_l).
  exists step2, (x ++ y)%string.
  split; [reflexivity|].
  split; [now rewrite Hy, Hx, string_app_assoc|].
  split; [exact Hr2|]. split; [exact Hs2|]. split; [|split; reflexivity].
  assert (Hcons : exists c' rest', step2 = String c' rest').
  { rewrite Hy, Hx. subst uri. cbn. eauto. }
  destruct Hcons as (c' & rest' & Hc). clearbody step2. subst step2.
  unfold mongodb_uri. cbv zeta. rewrite Hr2. cbn [negb]. rewrite Hs2. cbn [negb].
  now rewrite Hc.
Qed.

Lemma mongodb_uri_sample :
  mongodb_uri (Some "mongodb+srv://bot:pw@cluster0.example.net/predictions")
  = Some "mongodb+srv://bot:pw@cluster0.example.net/predictions?retryWrites=true&w=majority&ssl=true".
Proof.
  destruct (mongodb_uri_prepared
              "mongodb+srv://bot:pw@cluster0.example.net/predictions"
              ltac:(discriminate)) as (out & suffix & Hout & _).
  rewrite Hout. vm_compute in Hout. injection Hout as <-. reflexivity.
Defined.

(** ** The leaderboard entry after a prediction *)

(** X17: after a prediction that completes, the leaderboard entry found
    for the sender carries the sender's id, the username of this very
    update (whatever was stored before) and the former score plus 1. *)
Theorem completed_prediction_overwrites_username cfg env h update args s q :
  h = h_color_prediction \/ h = h_number_prediction ->
  callback_query update = Some q ->
  result_of (run_handler cfg env h update args s) = Ok tt ->
  exists entry,
    find_one (fun d => l_user_id d =? id (from_user q))
      (leaderboard_collection (store_of (run_handler cfg env h update args s)))
    = Some entry
    /\ l_user_id entry = id (from_user q)
    /\ l_username entry = username (from_user q)
    /\ l_score entry = score_of (id (from_user q)) s + 1.
Proof.
  intros Hh Hq; revert Hh.
  intros [-> | ->]; cbn [run_handler];
    [rewrite handle_color_prediction_flow | rewrite handle_number_prediction_flow];
    rewrite Hq; [unfold color_flow | unfold number_flow]; cbv zeta; intros Hok;
    apply prediction_flow_completed in Hok as (_ & Hl & _);
    unfold find_one, score_of, find_one; rewrite Hl, find_increment_same;
    (destruct (find _ (leaderboard_collection s)) as [d|] eqn:E;
     [apply find_some in E as [_ E]; apply Z.eqb_eq in E|]);
    eexists; (split; [reflexivity|]); cbn; repeat split; auto.
Qed.

(** Alice has changed her username since her last prediction. *)
Definition alice_renamed : User := mkUser 42 (Some "alice_2024") "Alice" None.

Lemma completed_prediction_overwrites_username_sample :
  find_one (fun d => l_user_id d =? 42)
    (leaderboard_collection
       (store_of (run_handler sample_config calm h_color_prediction
                    (press alice_renamed "color_prediction") [] alice_played)))
  = Some (mkLeaderDoc 42 (Some "alice_2024") 3).
Proof.
  destruct (completed_prediction_overwrites_username sample_config calm
              h_color_prediction (press alice_renamed "color_prediction") []
              alice_played (mkCallbackQuery alice_renamed "color_prediction" (Some keyboard_message))
              (or_introl eq_refl) eq_refl eq_refl)
    as (entry & Hfind & Hid & Hname & Hscore).
  etransitivity; [exact Hfind|].
  destruct entry as [i n sc]. cbn in Hid, Hname, Hscore. now subst.
Defined.

(** ** The color draw *)

Lemma choice_of_two env a b :
  choice env [a; b] = a \/ choice env [a; b] = b.
Proof.
  unfold choice. cbn [List.length Z.of_nat Pos.of_succ_nat Pos.succ].
  pose proof (Z.mod_pos_bound (entropy env) 2 ltac:(lia)) as H.
  assert (E : entropy env mod 2 = 0 \/ entropy env mod 2 = 1) by lia.
  destruct E as [-> | ->]; [now left|now right].
Qed.

(** X18: the color drawn is RED or GREEN, never anything else; the record
    a color prediction writes carries that color, and the photo it sends
    is the picture of that color with the color in the caption. *)
Theorem color_prediction_outcome env update s :
  let color := choice env [RED; GREEN] in
  (color = RED \/ color = GREEN)
  /\ color_image RED = "https://t.me/megahubbots/16"
  /\ color_image GREEN = "https://t.me/megahubbots/15"
  /\ (forall d,
        In d (predictions_collection (store_of (handle_color_prediction env update s))) ->
        In d (predictions_collection s)
        \/ (p_type d = "color" /\ p_result d = color))
  /\ (forall photo cap mode kb,
        In (Called (reply_photo QueryMessage photo cap mode kb))
           (effects_of (handle_color_prediction env update s)) ->
        photo = color_image color
        /\ cap = (COLOR_CAPTION_HEAD ++ color ++ CAPTION_FOOT)%string).
Proof.
  intros color. split; [apply choice_of_two|].
  split; [reflexivity|]. split; [reflexivity|].
  rewrite handle_color_prediction_flow.
  destruct (callback_query update) as [q|]; cbn [store_of effects_of fst snd].
  - unfold color_flow. cbv zeta. fold color. split.
    + intros d Hin. apply prediction_flow_records in Hin as [Hin| ->]; auto.
    + intros photo cap mode kb Hin. now apply prediction_flow_photo in Hin.
  - split; [auto|]. intros ? ? ? ? [].
Qed.

(** ** Who asks the gate *)

Definition not_membership_query (e : Effect) : bool :=
  match e with
  | Called (get_chat_member _ _) | CallFailed (get_chat_member _ _) _ => false
  | _ => true
  end.

(** Every effect of the computation satisfies [p]. *)
Definition emits_only {A} (p : Effect -> bool) (m : M A) : Prop :=
  forall s, forallb p (effects_of (m s)) = true.

Lemma emits_ret {A} p (a : A) : emits_only p (ret a).
Proof. intros s. reflexivity. Qed.

Lemma emits_raise {A} p e : emits_only p (@raise A e).
Proof. intros s. reflexivity. Qed.

Lemma emits_attr {A} p (o : option A) name : emits_only p (attr o name).
Proof. destruct o; [apply emits_ret|apply emits_raise]. Qed.

Lemma emits_emit p e : p e = true -> emits_only p (emit e).
Proof. intros H s. cbn. now rewrite H. Qed.

Lemma emits_call env c :
  match c with get_chat_member _ _ => False | _ => True end ->
  emits_only not_membership_query (call env c).
Proof.
  intros H s. unfold call.
  destruct (telegram env c); destruct c; try contradiction; reflexivity.
Qed.

Lemma emits_db {A} env op (f : Store -> A * Store) :
  emits_only not_membership_query (db env op f).
Proof. intros s. unfold db. destruct (mongo env op); reflexivity. Qed.

Lemma emits_bind {A B} p (m : M A) (k : A -> M B) :
  emits_only p m -> (forall a, emits_only p (k a)) -> emits_only p (bind m k).
Proof.
  intros Hm Hk s. specialize (Hm s). unfold bind.
  destruct (m s) as [[[a|e] s1] t1]; cbn [effects_of snd] in *; [|exact Hm].
  specialize (Hk a s1). destruct (k a s1) as [[r s2] t2].
  cbn [effects_of snd] in *. now rewrite forallb_app, Hm, Hk.
Qed.

Lemma emits_try_except {A} p (m : M A) (h : exn -> M A) :
  emits_only p m -> (forall e, emits_only p (h e)) -> emits_only p (try_except m h).
Proof.
  intros Hm Hh s. specialize (Hm s). unfold try_except.
  destruct (m s) as [[[a|e] s1] t1]; cbn [effects_of snd] in *; [exact Hm|].
  specialize (Hh e s1). destruct (h e s1) as [[r s2] t2].
  cbn [effects_of snd] in *. now rewrite forallb_app, Hm, Hh.
Qed.

Lemma emits_for_each {A} p (l : list A) body :
  (forall a, emits_only p (body a)) -> emits_only p (for_each l body).
Proof.
  intros Hb. induction l as [|a rest IH]; cbn [for_each];
    [apply emits_ret|apply emits_bind; auto].
Qed.

Ltac emits_step :=
  first
    [ apply emits_ret | apply emits_raise | apply emits_attr
    | apply emits_emit; reflexivity
    | apply emits_call; exact I
    | apply emits_db
    | apply emits_bind; [|intros ?]
    | apply emits_try_except; [|intros ?]
    | apply emits_for_each; intros ?
    | match goal with
      | |- emits_only _ (if ?b then _ else _) => destruct b
      | |- emits_only _ (match ?x with _ => _ end) => destruct x
      end ].

Lemma emits_broadcast_loop env users text : forall success,
  emits_only not_membership_query (broadcast_loop env users text success).
Proof.
  induction users as [|user rest IH]; intros success; cbn [broadcast_loop].
  - apply emits_ret.
  - apply emits_bind; [repeat emits_step|]. intros n. apply IH.
Qed.

(** X19: only [start], [how_to_bet], [profile] and [verify_membership]
    ever ask the provider about membership.  The two prediction handlers,
    [leaderboard], [broadcast], [stats] and [contact_us] make no
    [get_chat_member] call, whoever sends the update. *)
Theorem ungated_handlers_never_ask cfg env h update args s :
  h <> h_start -> h <> h_howtobet -> h <> h_profile -> h <> h_verify_membership ->
  forallb not_membership_query (effects_of (run_handler cfg env h update args s))
  = true.
Proof.
  intros Hs Hb Hp Hv. revert s.
  change (emits_only not_membership_query (run_handler cfg env h update args)).
  destruct h; try contradiction; cbn [run_handler].
  - unfold leaderboard, get_leaderboard. repeat emits_step.
  - unfold broadcast.
    apply emits_bind; [apply emits_attr|]. intros user.
    destruct (negb _); [repeat emits_step|].
    destruct args; [repeat emits_step|].
    apply emits_bind; [apply emits_db|]. intros users.
    apply emits_bind; [apply emits_broadcast_loop|]. intros n. repeat emits_step.
  - unfold stats. repeat emits_step.
  - unfold contact_us. repeat emits_step.
  - unfold handle_color_prediction, show_sync_animation, add_prediction,
      update_leaderboard.
    repeat emits_step.
  - unfold handle_number_prediction, show_sync_animation, add_prediction,
      update_leaderboard.
    repeat emits_step.
Qed.

Lemma ungated_handlers_never_ask_sample :
  forallb not_membership_query
    (effects_of (run_handler sample_config outsider h_number_prediction
                   (press alice "number_prediction") [] empty_store))
  = true.
Proof.
  apply (ungated_handlers_never_ask sample_config outsider h_number_prediction);
    discriminate.
Defined.

(** X20: [profile] from someone who is not a member of every channel
    reads nothing from the store: after the membership queries it only
    sends the join prompt. *)
Theorem profile_gated cfg env update user m s :
  effective_user update = Some user ->
  message update = Some m ->
  (List.length (required_channels cfg) <= List.length (channel_links cfg))%nat ->
  gate cfg env (id user) = false ->
  filter is_db (effects_of (profile cfg env update s)) = []
  /\ attempts (effects_of (profile cfg env update s))
     = (map (fun channel => get_chat_member ("@" ++ channel) (id user))
          (asked_channels env (id user) (required_channels cfg))
        ++ [join_prompt cfg])%list
  /\ store_of (profile cfg env update s) = s.
Proof.
  intros Hu Hm Hle Hg.
  assert (Hrun : profile cfg env update s
                 = (call_result env (join_prompt cfg), s,
                    gate_effects cfg env (id user)
                    ++ [call_effect env (join_prompt cfg)])).
  { unfold profile. rewrite Hu. cbn [attr]. rewrite bind_ret_run.
    unfold bind at 1. rewrite is_user_member_run, Hg. cbn [negb].
    rewrite ask_user_to_join_run. apply Nat.leb_le in Hle. rewrite Hle.
    unfold reply_run. now rewrite Hm. }
  rewrite Hrun. cbn [store_of effects_of fst snd].
  rewrite filter_app, gate_effects_no_db, call_effect_no_db.
  rewrite attempts_app, attempts_gate_effects, attempts_call_effect.
  repeat split.
Qed.

Lemma profile_gated_sample :
  filter is_db
    (effects_of (profile sample_config outsider (command alice "/profile")
                   alice_played))
  = [].
Proof.
  destruct (profile_gated sample_config outsider (command alice "/profile") alice
              (mkMessage (Some alice) "/profile") alice_played eq_refl eq_refl
              ltac:(cbn; lia) eq_refl) as (Hdb & _).
  exact Hdb.
Defined.

(** * Predictions from start to finish *)

Lemma show_sync_animation_all_ok env query prompt s :
  query_message query = Some prompt ->
  (forall c, telegram env c = None) ->
  show_sync_animation env query s = (Ok tt, s, full_animation).
Proof.
  intros Hp Hall.
  destruct (show_sync_animation_outcome env query s) as (r & t & -> & Hend).
  rewrite Hp in Hend. destruct Hend as (passed & left & _ & _ & Hend).
  destruct left as [|c left'].
  - now destruct Hend as [-> ->].
  - destruct Hend as (e & He & _). rewrite Hall in He. discriminate.
Qed.

Section FlowDelivered.

Variables (env : Env) (query : CallbackQuery).
Variables (ptype result image caption again : string).
Variable s : Store.

Let photo :=
  reply_photo QueryMessage image caption "HTML" [[CallbackButton AGAIN_BUTTON again]].
Let run := prediction_flow env query ptype result image caption again s.

(** A run that returns has shown the acknowledgement and the animation,
    done the two writes, deleted the placeholder and sent the photo, in
    this order. *)
Lemma prediction_flow_delivered :
  result_of run = Ok tt ->
  exists shown,
    forallb ui_effect shown = true
    /\ effects_of run
       = (shown ++ [Db predictions_insert_one true; Db leaderboard_update_one true;
                    Called (delete SyncMessage); Called photo])%list.
Proof.
  subst run photo.
  destruct (prediction_flow_cases env query ptype result image caption again s)
    as (t0 & Ht0 & [(e & ->)|[(e & _ & ->)|[(e & _ & _ & ->)|(_ & _ & r & t1 & -> & D)]]]);
    cbn [result_of effects_of fst snd]; try discriminate.
  intros ->. exists t0. split; [exact Ht0|].
  destruct D as [(e & ? & _)|[(e & ? & _)|(_ & ->)]]; try discriminate.
  reflexivity.
Qed.

(** With the message of the query at hand, every call going through and
    both writes returning, the run returns. *)
Lemma prediction_flow_returns prompt :
  query_message query = Some prompt ->
  (forall c, telegram env c = None) ->
  mongo env predictions_insert_one = None ->
  mongo env leaderboard_update_one = None ->
  result_of run = Ok tt.
Proof.
  intros Hp Hall Hins Hinc. subst run photo. unfold prediction_flow.
  unfold bind, call, add_prediction, update_leaderboard, db.
  rewrite (Hall (answer None false)). cbv beta iota.
  rewrite (show_sync_animation_all_ok env query prompt s Hp Hall).
  rewrite Hins, Hinc, Hp. cbn [fst snd attr ret].
  rewrite !Hall. reflexivity.
Qed.

End FlowDelivered.

(** C8: the number drawn lies in 1..10; its label is SMALL exactly for
    1..4 and BIG exactly for 5..10, computed from the number alone against
    the literal 4.  A number prediction that completes has appended the
    record of the sender with that number and that label, and has sent,
    last, the picture of that label with both in the caption; and it does
    complete whenever the query carries its message, the calls go through
    and the two writes return.  No record and no photo of a number
    prediction carries anything else. *)
Theorem number_prediction_size_label env update s :
  let number := randint env 1 10 in
  let size := size_of number in
  1 <= number <= 10
  /\ (size = "SMALL" <-> 1 <= number <= 4)
  /\ (size = "BIG" <-> 5 <= number <= 10)
  /\ (forall d,
        In d (predictions_collection (store_of (handle_number_prediction env update s))) ->
        In d (predictions_collection s)
        \/ (p_type d = "number" /\ p_result d = (str number ++ " (" ++ size ++ ")")%string))
  /\ (forall photo cap mode kb,
        In (Called (reply_photo QueryMessage photo cap mode kb))
           (effects_of (handle_number_prediction env update s)) ->
        photo = size_image size
        /\ cap = (NUMBER_CAPTION_HEAD ++ (str number ++ " (" ++ size ++ ")")
                  ++ CAPTION_FOOT)%string)
  /\ (result_of (handle_number_prediction env update s) = Ok tt ->
      exists q shown,
        callback_query update = Some q
        /\ predictions_collection (store_of (handle_number_prediction env update s))
           = (predictions_collection s
              ++ [mkPredictionDoc (id (from_user q)) "number"
                    (str number ++ " (" ++ size ++ ")")%string (now env)])%list
        /\ effects_of (handle_number_prediction env update s)
           = (shown
              ++ [Db predictions_insert_one true; Db leaderboard_update_one true;
                  Called (delete SyncMessage);
                  Called (reply_photo QueryMessage (size_image size)
                            (NUMBER_CAPTION_HEAD ++ (str number ++ " (" ++ size ++ ")")
                             ++ CAPTION_FOOT)%string
                            "HTML"
                            [[CallbackButton AGAIN_BUTTON "number_prediction"]])])%list
        /\ forallb ui_effect shown = true)
  /\ (forall q prompt,
        callback_query update = Some q ->
        query_message q = Some prompt ->
        (forall c, telegram env c = None) ->
        mongo env predictions_insert_one = None ->
        mongo env leaderboard_update_one = None ->
        result_of (handle_number_prediction env update s) = Ok tt).
Proof.
  intros number size.
  assert (Hr : 1 <= number <= 10) by (apply randint_range; lia).
  split; [exact Hr|]. subst size.
  split; [rewrite size_of_SMALL; lia|].
  split; [rewrite size_of_BIG; lia|].
  rewrite handle_number_prediction_flow.
  destruct (callback_query update) as [q|]; cbn [result_of store_of effects_of fst snd].
  - unfold number_flow. cbv zeta. fold number.
    split; [|split; [|split]].
    + intros d Hin. apply prediction_flow_records in Hin as [Hin| ->]; auto.
    + intros photo cap mode kb Hin. now apply prediction_flow_photo in Hin.
    + intros Hok. exists q.
      destruct (prediction_flow_delivered _ _ _ _ _ _ _ _ Hok) as (shown & Hui & Heff).
      apply prediction_flow_completed in Hok as (Hp & _).
      exists shown. repeat split; assumption.
    + intros q' prompt Hq Hp Hall Hins Hinc. injection Hq as <-.
      now apply (prediction_flow_returns _ _ _ _ _ _ _ _ prompt).
  - split; [auto|]. split; [intros ? ? ? ? []|].
    split; [discriminate|]. intros q prompt Hq. discriminate.
Qed.

Lemma completed_prediction_writes cfg env h update args s q :
  h = h_color_prediction \/ h = h_number_prediction ->
  callback_query update = Some q ->
  result_of (run_handler cfg env h update args s) = Ok tt ->
  has_prediction (id (from_user q)) (store_of (run_handler cfg env h update args s))
  /\ has_leader (id (from_user q)) (store_of (run_handler cfg env h update args s))
  /\ users_collection (store_of (run_handler cfg env h update args s))
     = users_collection s.
Proof.
  intros Hh Hq. unfold has_prediction, has_leader.
  destruct Hh as [-> | ->]; cbn [run_handler];
    [rewrite handle_color_prediction_flow | rewrite handle_number_prediction_flow];
    rewrite Hq; [unfold color_flow | unfold number_flow]; cbv zeta; intros Hok;
    apply prediction_flow_completed in Hok as (Hp & Hl & Hu & _);
    rewrite Hp, Hl, map_app;
    (split; [apply in_or_app; right; now left|]);
    (split; [apply leader_ids_increment; now left|exact Hu]).
Qed.

(** C4, amended: in every reachable store a leaderboard entry for a user
    comes with at least one prediction record of that user; and when no
    increment ever raised, every user with a prediction record has a
    leaderboard entry too.  User documents are written by [start] only,
    also when it is entered from [verify_membership]: no other handler
    changes the users.  A prediction handler asks for no user document:
    from any such store, with the message of the query at hand, the calls
    going through and the two writes returning, it completes and leaves a
    record and a leaderboard entry of the sender, and the users as they
    were, whether or not the sender is among them. *)
Theorem leaderboard_entry_iff_record cfg allowed s :
  reachable cfg allowed s ->
  (forall u, has_leader u s -> has_prediction u s)
  /\ ((forall env, allowed env -> increment_works env) ->
      forall u, has_prediction u s -> has_leader u s)
  /\ (forall env h update args,
        h <> h_start -> h <> h_verify_membership ->
        users_collection (store_of (run_handler cfg env h update args s))
        = users_collection s)
  /\ (forall env h update args q prompt,
        h = h_color_prediction \/ h = h_number_prediction ->
        callback_query update = Some q ->
        query_message q = Some prompt ->
        (forall c, telegram env c = None) ->
        mongo env predictions_insert_one = None ->
        mongo env leaderboard_update_one = None ->
        result_of (run_handler cfg env h update args s) = Ok tt
        /\ has_prediction (id (from_user q))
             (store_of (run_handler cfg env h update args s))
        /\ has_leader (id (from_user q))
             (store_of (run_handler cfg env h update args s))
        /\ users_collection (store_of (run_handler cfg env h update args s))
           = users_collection s).
Proof.
  intros Hreach.
  assert (Hinv :
    (forall u, has_leader u s -> has_prediction u s)
    /\ ((forall env, allowed env -> increment_works env) ->
        forall u, has_prediction u s -> has_leader u s)).
  { clear - Hreach. unfold has_leader, has_prediction.
    induction Hreach as [|s env h update args Hs [IH1 IH2] Henv
                         |s JSON rj dj request Hs [IH1 IH2]].
    - split; [intros u []|intros _ u []].
    - destruct (handler_step cfg env h update args s)
        as [[-> ->]|(user_id & uname & record & Hid & -> & [[-> Hdown]| ->])].
      + split; assumption.
      + split.
        * intros u Hu. rewrite map_app. apply in_or_app. left. now apply IH1.
        * intros Hall. destruct Hdown. now apply Hall.
      + split.
        * intros u Hu. rewrite map_app. apply in_or_app.
          apply leader_ids_increment in Hu as [->|Hu]; [right; cbn; auto|left; auto].
        * intros Hall u Hu. rewrite map_app in Hu. apply leader_ids_increment.
          apply in_app_or in Hu as [Hu|[<-|[]]]; [right; now apply IH2|left; auto].
    - destruct (webhook_keeps JSON rj dj request s) as [-> ->]. split; assumption. }
  destruct Hinv as [H1 H2]. split; [exact H1|]. split; [exact H2|]. split.
  - intros env h update args Hs Hv.
    destruct h; try contradiction;
      try (apply (keeps_handlers users_collection);
           [intros [?|?]; discriminate|discriminate|discriminate]);
      cbn [run_handler];
      [rewrite handle_color_prediction_flow | rewrite handle_number_prediction_flow];
      (destruct (callback_query update); [apply users_after_prediction|reflexivity]).
  - intros env h update args q prompt Hh Hq Hp Hall Hins Hinc.
    assert (Hok : result_of (run_handler cfg env h update args s) = Ok tt).
    { destruct Hh as [-> | ->]; cbn [run_handler];
        [rewrite handle_color_prediction_flow | rewrite handle_number_prediction_flow];
        rewrite Hq; [unfold color_flow | unfold number_flow]; cbv zeta;
        now apply (prediction_flow_returns _ _ _ _ _ _ _ _ prompt). }
    split; [exact Hok|].
    destruct (completed_prediction_writes cfg env h update args s q Hh Hq Hok)
      as (Hrec & Hlead & Husers).
    repeat split; assumption.
Qed.

(** A run of the color handler from the empty store, with everything up. *)
Lemma leaderboard_entry_iff_record_after_one_press :
  has_leader 42 (store_of (run_handler sample_config calm h_color_prediction
                             (press alice "color_prediction") [] empty_store))
  /\ users_collection
       (store_of (run_handler sample_config calm h_number_prediction
                    (press alice "number_prediction") []
                    (store_of (run_handler sample_config calm h_color_prediction
                                 (press alice "color_prediction") [] empty_store))))
     = [].
Proof.
  destruct (leaderboard_entry_iff_record sample_config increment_works
              (store_of (run_handler sample_config calm h_color_prediction
                           (press alice "color_prediction") [] empty_store))
              (reach_handler _ _ _ calm h_color_prediction
                 (press alice "color_prediction") [] (reach_empty _ _) eq_refl))
    as (_ & Hrecords & Husers & _).
  split.
  - apply (Hrecords (fun env H => H)). vm_compute. auto.
  - apply (Husers calm h_number_prediction (press alice "number_prediction") []);
      discriminate.
Defined.
